(** * Rental marketplace bot: ad lifecycle, moderation and matching

    A shallow embedding of the service layer of the bot
    ([services/ad_service.py], [services/moderation_service.py]), of the
    subscription matcher ([database/models/subscription.py]) and of the
    field validators ([utils/validators.py]).

    Python strings are sequences of Unicode code points; they are modelled
    as [list Z].  Decimal column values ([Numeric(10, 2)]) are modelled as
    rationals [Q].  The database is a pair of tables keyed by primary key;
    every service call takes the current tables and returns its Python
    result together with the tables after the commit.  Server-managed
    timestamps ([updated_at]) are not modelled.  Where a service writes
    caller-supplied values into the [ads] table, the column types are
    applied as PostgreSQL applies them ([VARCHAR(n)] lengths and
    [NUMERIC(10, 2)] rounding and range); strings are taken to hold no NUL
    character and no lone surrogate, which the driver or the server would
    refuse in any column. *)

From Stdlib Require Import ZArith QArith String Ascii Lia Sorted.
From stdpp Require Import base gmap list.

Open Scope Z_scope.

(** ** Strings *)

Definition pystr := list Z.

(** ASCII literal of a Python string (used to write concrete inputs). *)
Fixpoint of_ascii (s : string) : pystr :=
  match s with
  | EmptyString => []
  | String c s' => Z.of_nat (nat_of_ascii c) :: of_ascii s'
  end.

Definition pystr_eqb (a b : pystr) : bool := bool_decide (a = b).

(** Python truthiness of a [str | None] value: [None] and [""] are falsy. *)
Definition truthy_str (o : option pystr) : bool :=
  match o with
  | Some (_ :: _) => true
  | _ => false
  end.

(** [a.startswith(b)] *)
Fixpoint is_prefix (p s : pystr) : bool :=
  match p, s with
  | [], _ => true
  | x :: p', y :: s' => (x =? y) && is_prefix p' s'
  | _ :: _, [] => false
  end.

(** Python's [p in s] for two strings: substring containment. *)
Fixpoint py_in (p s : pystr) : bool :=
  is_prefix p s ||
  match s with
  | [] => false
  | _ :: s' => py_in p s'
  end.

(** ** Data model ([database/models/ad.py], [database/models/report.py]) *)

Inductive AdStatus := PENDING | ACTIVE | REJECTED | RENTED | CLOSED.

#[global] Instance AdStatus_eq_dec : EqDecision AdStatus.
Proof. solve_decision. Defined.

Record Ad := mk_ad {
  ad_id : Z;
  title : pystr;
  description : pystr;
  price_per_day : Q;
  location : pystr;
  category : pystr;
  contact_info : pystr;
  photo_id : option pystr;
  status : AdStatus;
  rejection_reason : option pystr;
  views_count : Z;
  owner_id : Z;
  created_at : Z
}.

Inductive ReportReason := SPAM | FRAUD | INAPPROPRIATE | WRONG_CATEGORY | FAKE | OTHER.

Inductive ReportStatus := R_PENDING | R_REVIEWED | R_DISMISSED.

#[global] Instance ReportStatus_eq_dec : EqDecision ReportStatus.
Proof. solve_decision. Defined.

Record Report := mk_report {
  report_id : Z;
  reason : ReportReason;
  report_description : option pystr;
  report_status : ReportStatus;
  admin_comment : option pystr;
  reporter_id : Z;
  report_ad_id : Z;
  reviewed_by : option Z;
  reviewed_at : option Z
}.

(** The two tables, keyed by primary key. *)
Record DB := mk_db {
  ads : gmap Z Ad;
  reports : gmap Z Report
}.

Definition set_ads (db : DB) (t : gmap Z Ad) : DB := mk_db t (reports db).
Definition set_reports (db : DB) (t : gmap Z Report) : DB := mk_db (ads db) t.

(** Assignments to single columns of an ad row. *)
Definition with_status (a : Ad) (s : AdStatus) : Ad :=
  mk_ad (ad_id a) (title a) (description a) (price_per_day a) (location a)
    (category a) (contact_info a) (photo_id a) s (rejection_reason a)
    (views_count a) (owner_id a) (created_at a).

Definition with_rejection_reason (a : Ad) (r : option pystr) : Ad :=
  mk_ad (ad_id a) (title a) (description a) (price_per_day a) (location a)
    (category a) (contact_info a) (photo_id a) (status a) r
    (views_count a) (owner_id a) (created_at a).

(** [UPDATE ads SET ... WHERE id = ad_id AND cond]: returns the row count
    and the new tables. *)
Definition update_ad_where (db : DB) (ad_id0 : Z) (cond : Ad -> bool)
    (set : Ad -> Ad) : nat * DB :=
  match ads db !! ad_id0 with
  | Some a => if cond a then (1%nat, set_ads db (<[ad_id0 := set a]> (ads db)))
              else (0%nat, db)
  | None => (0%nat, db)
  end.

(** [SELECT ... FROM ads WHERE id = ad_id AND cond] with
    [scalar_one_or_none]. *)
Definition select_ad_where (db : DB) (ad_id0 : Z) (cond : Ad -> bool) : option Ad :=
  match ads db !! ad_id0 with
  | Some a => if cond a then Some a else None
  | None => None
  end.

Definition is_status (s : AdStatus) (a : Ad) : bool := bool_decide (status a = s).

(** The orders of [ORDER BY created_at ASC] and [ORDER BY created_at DESC]. *)
Definition older (x y : Ad) : Prop := created_at x <= created_at y.
Definition newer (x y : Ad) : Prop := created_at y <= created_at x.

(** ** Column types of the [ads] table *)

(** Storing a string in a [VARCHAR(n)] column ([String(n)]): a longer
    string raises [StringDataRightTruncationError], unless the characters
    past the [n]-th are all spaces, which are then cut off. *)
Definition pg_varchar (n : nat) (s : pystr) : option pystr :=
  if Nat.leb (length s) n then Some s
  else if forallb (fun c => c =? 32) (drop n s) then Some (take n s)
  else None.

(** Rounding of [numeric] to an integer: halves away from zero. *)
Definition round_half_away (x : Q) : Z :=
  if 0 <=? Qnum x then (2 * Qnum x + Zpos (Qden x)) / (2 * Zpos (Qden x))
  else - ((2 * - Qnum x + Zpos (Qden x)) / (2 * Zpos (Qden x))).

(** Storing a number in a [NUMERIC(10, 2)] column: rounded to two decimals;
    a value with more than 8 digits before the point then raises
    [NumericValueOutOfRangeError]. *)
Definition pg_numeric_10_2 (x : Q) : option Q :=
  let cents := round_half_away (x * 100) in
  if Z.abs cents <? 10 ^ 10 then Some (cents # 100) else None.

(** ** [AdService] *)
Module AdService.

(** [get_by_id] *)
Definition get_by_id (db : DB) (ad_id0 : Z) : option Ad := ads db !! ad_id0.

(** The keyword arguments [**fields] of [update_ad]: one constructor per
    column name of the allow-list, and [KwOther] for any other keyword. *)
Inductive Kwarg :=
| KwTitle (v : pystr)
| KwDescription (v : pystr)
| KwPricePerDay (v : Q)
| KwLocation (v : pystr)
| KwCategory (v : pystr)
| KwContactInfo (v : pystr)
| KwPhotoId (v : option pystr)
| KwOther (name : pystr).

(** [k in allowed_fields] *)
Definition allowed (k : Kwarg) : bool :=
  match k with
  | KwOther _ => false
  | _ => true
  end.

(** One [column = value] assignment of [.values( **update_data)]. *)
Definition assign (a : Ad) (k : Kwarg) : Ad :=
  match k with
  | KwTitle v => mk_ad (ad_id a) v (description a) (price_per_day a) (location a)
      (category a) (contact_info a) (photo_id a) (status a) (rejection_reason a)
      (views_count a) (owner_id a) (created_at a)
  | KwDescription v => mk_ad (ad_id a) (title a) v (price_per_day a) (location a)
      (category a) (contact_info a) (photo_id a) (status a) (rejection_reason a)
      (views_count a) (owner_id a) (created_at a)
  | KwPricePerDay v => mk_ad (ad_id a) (title a) (description a) v (location a)
      (category a) (contact_info a) (photo_id a) (status a) (rejection_reason a)
      (views_count a) (owner_id a) (created_at a)
  | KwLocation v => mk_ad (ad_id a) (title a) (description a) (price_per_day a) v
      (category a) (contact_info a) (photo_id a) (status a) (rejection_reason a)
      (views_count a) (owner_id a) (created_at a)
  | KwCategory v => mk_ad (ad_id a) (title a) (description a) (price_per_day a)
      (location a) v (contact_info a) (photo_id a) (status a) (rejection_reason a)
      (views_count a) (owner_id a) (created_at a)
  | KwContactInfo v => mk_ad (ad_id a) (title a) (description a) (price_per_day a)
      (location a) (category a) v (photo_id a) (status a) (rejection_reason a)
      (views_count a) (owner_id a) (created_at a)
  | KwPhotoId v => mk_ad (ad_id a) (title a) (description a) (price_per_day a)
      (location a) (category a) (contact_info a) v (status a) (rejection_reason a)
      (views_count a) (owner_id a) (created_at a)
  | KwOther _ => a
  end.

(** The value one assignment of [.values( **update_data)] stores, by the
    type of its column: [String(200)] for [title], [location],
    [contact_info] and [photo_id], [String(100)] for [category], [Text] for
    [description], [Numeric(10, 2)] for [price_per_day]; [None] when the
    column refuses it. *)
Definition store (k : Kwarg) : option Kwarg :=
  match k with
  | KwTitle v => KwTitle <$> pg_varchar 200 v
  | KwDescription v => Some (KwDescription v)
  | KwPricePerDay v => KwPricePerDay <$> pg_numeric_10_2 v
  | KwLocation v => KwLocation <$> pg_varchar 200 v
  | KwCategory v => KwCategory <$> pg_varchar 100 v
  | KwContactInfo v => KwContactInfo <$> pg_varchar 200 v
  | KwPhotoId None => Some (KwPhotoId None)
  | KwPhotoId (Some v) => (fun v' => KwPhotoId (Some v')) <$> pg_varchar 200 v
  | KwOther n => Some (KwOther n)
  end.

Fixpoint store_all (ks : list Kwarg) : option (list Kwarg) :=
  match ks with
  | [] => Some []
  | k :: ks' =>
      match store k, store_all ks' with
      | Some k', Some ks'' => Some (k' :: ks'')
      | _, _ => None
      end
  end.

(** [update_ad(ad_id, owner_id, **fields)]; [None] when the [UPDATE]
    raises because a value does not fit its column (nothing is
    committed). *)
Definition update_ad (db : DB) (ad_id0 owner_id0 : Z) (fields : list Kwarg)
    : option (bool * DB) :=
  match get_by_id db ad_id0 with
  | None => Some (false, db)
  | Some a =>
      if negb (owner_id a =? owner_id0) then Some (false, db) else
      let update_data := filter (fun k => allowed k = true) fields in
      match update_data with
      | [] => Some (false, db)
      | _ =>
          match store_all update_data with
          | None => None
          | Some stored =>
              let '(rowcount, db') :=
                update_ad_where db ad_id0 (fun _ => true)
                  (fun r => with_rejection_reason
                              (with_status (foldl assign r stored) PENDING) None) in
              Some (Nat.ltb 0 rowcount, db')
          end
      end
  end.

(** [set_status(ad_id, owner_id, status)] *)
Definition set_status (db : DB) (ad_id0 owner_id0 : Z) (st : AdStatus) : bool * DB :=
  if negb (bool_decide (st = RENTED) || bool_decide (st = CLOSED)) then (false, db) else
  let '(rowcount, db') :=
    update_ad_where db ad_id0
      (fun r => (owner_id r =? owner_id0) && is_status ACTIVE r)
      (fun r => with_status r st) in
  (Nat.ltb 0 rowcount, db').

End AdService.

(** ** [ModerationService] *)
Module ModerationService.

(** [approve_ad(ad_id, moderator_id)] *)
Definition approve_ad (db : DB) (ad_id0 moderator_id : Z) : option Ad * DB :=
  match select_ad_where db ad_id0 (is_status PENDING) with
  | None => (None, db)
  | Some a =>
      let a' := with_status a ACTIVE in
      (Some a', set_ads db (<[ad_id0 := a']> (ads db)))
  end.

(** [reject_ad(ad_id, moderator_id, reason)] *)
Definition reject_ad (db : DB) (ad_id0 moderator_id : Z) (reason0 : pystr)
    : option Ad * DB :=
  match select_ad_where db ad_id0 (is_status PENDING) with
  | None => (None, db)
  | Some a =>
      let a' := with_rejection_reason (with_status a REJECTED) (Some reason0) in
      (Some a', set_ads db (<[ad_id0 := a']> (ads db)))
  end.

(** [review_report(report_id, moderator_id, action, comment)]; [now] is the
    value of [datetime.now()].  The relationship [report.ad] is the row of
    [ads] with the report's [ad_id], when there is one. *)
Definition review_report (db : DB) (report_id0 moderator_id : Z) (action : pystr)
    (comment : option pystr) (now : Z) : option Report * DB :=
  match reports db !! report_id0 with
  | None => (None, db)
  | Some r =>
      if negb (bool_decide (report_status r = R_PENDING)) then (None, db) else
      let reviewed (st : ReportStatus) :=
        mk_report (report_id r) (reason r) (report_description r) st comment
          (reporter_id r) (report_ad_id r) (Some moderator_id) (Some now) in
      if pystr_eqb action (of_ascii "approve") then
        let r' := reviewed R_REVIEWED in
        let db1 :=
          match ads db !! report_ad_id r with
          | Some a => set_ads db (<[report_ad_id r := with_status a CLOSED]> (ads db))
          | None => db
          end in
        (Some r', set_reports db1 (<[report_id0 := r']> (reports db1)))
      else
        let r' := reviewed R_DISMISSED in
        (Some r', set_reports db (<[report_id0 := r']> (reports db)))
  end.

End ModerationService.

(** ** Subscriptions ([database/models/subscription.py]) *)

Record Subscription := mk_subscription {
  keywords : option pystr;
  sub_category : option pystr;
  sub_location : option pystr;
  max_price : option Q;
  is_active : bool;
  user_id : Z
}.

(** Python's [Decimal | None] truthiness: [None] and zero are falsy. *)
Definition truthy_dec (o : option Q) : bool :=
  match o with
  | Some m => negb (Qeq_bool m 0)
  | None => false
  end.

Section Matching.

(** [str.lower] *)
Variable lower : pystr -> pystr.

(** [Subscription.matches_ad]: each [if ...: return False] in turn. *)
Definition matches_ad (s : Subscription) (ad : Ad) : bool :=
  if match keywords s with
     | Some k =>
         truthy_str (Some k) &&
         negb (py_in (lower k) (lower (title ad))) &&
         negb (py_in (lower k) (lower (description ad)))
     | None => false
     end then false else
  if match sub_category s with
     | Some c => truthy_str (Some c) && negb (pystr_eqb c (category ad))
     | None => false
     end then false else
  if match sub_location s with
     | Some l => truthy_str (Some l) && negb (py_in (lower l) (lower (location ad)))
     | None => false
     end then false else
  if match max_price s with
     | Some m => truthy_dec (Some m) && negb (Qle_bool (price_per_day ad) m)
     | None => false
     end then false else
  true.

End Matching.

(** ** Validators ([utils/validators.py]) *)
Module Validators.

(** [str.isspace] for one code point (the separators of [str.split()] and
    [str.strip()]). *)
Definition py_isspace (c : Z) : bool :=
  ((9 <=? c) && (c <=? 13)) || ((28 <=? c) && (c <=? 32)) || (c =? 133) || (c =? 160) ||
  (c =? 5760) || ((8192 <=? c) && (c <=? 8202)) || (c =? 8232) || (c =? 8233) ||
  (c =? 8239) || (c =? 8287) || (c =? 12288).

(** [str.split()] with no separator: maximal runs of non-whitespace;
    [cur] is the current word, reversed. *)
Fixpoint split_aux (s cur : pystr) : list pystr :=
  match s with
  | [] => match cur with [] => [] | _ => [rev cur] end
  | c :: s' =>
      if py_isspace c then
        match cur with
        | [] => split_aux s' []
        | _ => rev cur :: split_aux s' []
        end
      else split_aux s' (c :: cur)
  end.

Definition py_split (s : pystr) : list pystr := split_aux s [].

(** [' '.join(words)] *)
Fixpoint join_space (ws : list pystr) : pystr :=
  match ws with
  | [] => []
  | [w] => w
  | w :: ws' => w ++ 32 :: join_space ws'
  end.

Section Title.

(** Case-insensitive equality of two code points under [re.IGNORECASE]. *)
Variable ceq : Z -> Z -> bool.

(** A literal [p] matched case-insensitively at the start of [s]. *)
Fixpoint prefix_ci (p s : pystr) : bool :=
  match p, s with
  | [], _ => true
  | x :: p', y :: s' => ceq y x && prefix_ci p' s'
  | _ :: _, [] => false
  end.

(** [re.search] of a pattern given by the test [at_start] on suffixes. *)
Fixpoint search (at_start : pystr -> bool) (s : pystr) : bool :=
  at_start s || match s with [] => false | _ :: s' => search at_start s' end.

(** [(.)\1{5,}]: a character other than a newline followed by at least five
    characters equal to it (ignoring case). *)
Definition repeat_at (s : pystr) : bool :=
  match s with
  | c :: rest => negb (c =? 10) && Nat.leb 5 (length rest) &&
                 forallb (fun d => ceq d c) (take 5 rest)
  | [] => false
  end.

(** [https?://] *)
Definition url_at (s : pystr) : bool :=
  prefix_ci (of_ascii "https://") s || prefix_ci (of_ascii "http://") s.

(** [t\.me/] *)
Definition tme_at (s : pystr) : bool := prefix_ci (of_ascii "t.me/") s.

Definition spam_patterns : list (pystr -> bool) := [repeat_at; url_at; tme_at].

(** [validate_title] *)
Definition validate_title (title : pystr) : option pystr :=
  match title with
  | [] => None
  | _ =>
      let cleaned := join_space (py_split title) in
      if Nat.ltb (length cleaned) 3 || Nat.ltb 200 (length cleaned) then None
      else if existsb (fun pattern => search pattern cleaned) spam_patterns then None
      else Some cleaned
  end.

End Title.

(** [decimal.Decimal] values: finite [(-1)^sign * coefficient * 10^exponent],
    infinities and (signalling) NaNs. *)
Inductive Decimal :=
| DFinite (neg : bool) (coef : Z) (exp : Z)
| DInf (neg : bool)
| DNaN (neg : bool) (signaling : bool).

Definition finite_value (neg : bool) (coef exp : Z) : Q :=
  let c := if neg then - coef else coef in
  if 0 <=? exp then inject_Z (c * 10 ^ exp) else c # Z.to_pos (10 ^ (- exp)).

Fixpoint take_while (f : Z -> bool) (s : pystr) : pystr :=
  match s with
  | c :: s' => if f c then c :: take_while f s' else []
  | [] => []
  end.

Fixpoint drop_while (f : Z -> bool) (s : pystr) : pystr :=
  match s with
  | c :: s' => if f c then drop_while f s' else s
  | [] => []
  end.

(** [str.strip()] *)
Definition py_strip (s : pystr) : pystr :=
  rev (drop_while py_isspace (rev (drop_while py_isspace s))).

(** [s.replace(old, new)] for a non-empty [old]: left to right, without
    overlaps.  The fuel is the length of [s]; every step consumes one
    character at least. *)
Fixpoint replace_fuel (fuel : nat) (old new s : pystr) : pystr :=
  match fuel with
  | O => s
  | S f =>
      match s with
      | [] => []
      | c :: s' =>
          if is_prefix old s then new ++ replace_fuel f old new (drop (length old) s)
          else c :: replace_fuel f old new s'
      end
  end.

Definition py_replace (old new s : pystr) : pystr := replace_fuel (length s) old new s.

(** The string passed to [Decimal(...)] by [validate_price]. *)
Definition price_cleaned (price_str : pystr) : pystr :=
  let cleaned := py_replace [32] [] (py_replace [44] [46] (py_strip price_str)) in
  py_strip (py_replace [1088; 1091; 1073] []
              (py_replace [1088] [] (py_replace [8381] [] cleaned))).

Definition is_digit (c : Z) : bool := (48 <=? c) && (c <=? 57).

Fixpoint digits_value (acc : Z) (ds : pystr) : Z :=
  match ds with
  | [] => acc
  | d :: ds' => digits_value (10 * acc + (d - 48)) ds'
  end.

Definition ascii_fold (c : Z) : Z := if (65 <=? c) && (c <=? 90) then c + 32 else c.

Definition eq_ci (s t : pystr) : bool := pystr_eqb (map ascii_fold s) (map ascii_fold t).

(** The exponent part [E[-+]?\d+], or nothing. *)
Definition parse_exponent (s : pystr) : option Z :=
  match s with
  | [] => Some 0
  | e :: r =>
      if negb (ascii_fold e =? 101) then None else
      let '(neg, ds) := match r with
                        | 45 :: r' => (true, r')
                        | 43 :: r' => (false, r')
                        | _ => (false, r)
                        end in
      match ds with
      | [] => None
      | _ => if forallb is_digit ds
             then Some (if neg then - digits_value 0 ds else digits_value 0 ds)
             else None
      end
  end.

(** The limits of [mpd_maxcontext] on a 64-bit build ([MPD_MAX_PREC],
    [MPD_MAX_EMAX], [MPD_MIN_EMIN] and the smallest exponent [MPD_MIN_ETINY]
    [= MPD_MIN_EMIN - (MPD_MAX_PREC - 1)]). *)
Definition MPD_MAX_PREC : Z := 999999999999999999.
Definition MPD_MAX_EMAX : Z := 999999999999999999.
Definition MPD_MIN_EMIN : Z := -999999999999999999.
Definition MPD_MIN_ETINY : Z := MPD_MIN_EMIN - (MPD_MAX_PREC - 1).

(** The loop of [numeric_as_ascii] in CPython's [_decimal] (with
    [ignore_underscores]): [_] is dropped, code points 1..127 are copied,
    other whitespace becomes a space, a decimal digit becomes its ASCII
    digit; [todecimal] is [Py_UNICODE_TODECIMAL] (negative for a character
    that is no decimal digit), and any other character gives [None]. *)
Fixpoint as_ascii (todecimal : Z -> Z) (s : pystr) : option pystr :=
  match s with
  | [] => Some []
  | ch :: s' =>
      if ch =? 95 then as_ascii todecimal s'
      else if (0 <? ch) && (ch <=? 127) then cons ch <$> as_ascii todecimal s'
      else if py_isspace ch then cons 32 <$> as_ascii todecimal s'
      else let d := todecimal ch in
           if d <? 0 then None else cons (48 + d) <$> as_ascii todecimal s'
  end.

(** [numeric_as_ascii(u, 1, 1)]: strips whitespace, then converts; a
    character it cannot convert makes the result the empty string. *)
Definition numeric_as_ascii (todecimal : Z -> Z) (u : pystr) : pystr :=
  match as_ascii todecimal (py_strip u) with
  | Some r => r
  | None => []
  end.

(** The payload of a NaN in [mpd_qset_string]: digits only, at most
    [MPD_MAX_PREC] of them after the leading zeros. *)
Definition nan_payload (neg signaling : bool) (payload : pystr) : option Decimal :=
  if forallb is_digit payload &&
     (Z.of_nat (length (drop_while (fun c => c =? 48) payload)) <=? MPD_MAX_PREC)
  then Some (DNaN neg signaling) else None.

(** A finite number in [mpd_qset_string]: [digits [. digits] [E exponent]]
    with at least one digit before the exponent; then the checks of
    [mpd_qfinalize] under [mpd_maxcontext], where an adjusted exponent above
    [MPD_MAX_EMAX] (overflow, or clamping of a zero) or an exponent below
    [MPD_MIN_ETINY] (rounding, or clamping of a zero) sets a condition that
    [PyDecType_FromCStringExact] turns into [InvalidOperation]. *)
Definition mpd_set_finite (neg : bool) (body : pystr) : option Decimal :=
  let int_part := take_while is_digit body in
  let r1 := drop_while is_digit body in
  let '(frac, r2) := match r1 with
                     | 46 :: r => (take_while is_digit r, drop_while is_digit r)
                     | _ => ([], r1)
                     end in
  match int_part ++ frac with
  | [] => None
  | ds =>
      match parse_exponent r2 with
      | None => None
      | Some exp0 =>
          let e := exp0 - Z.of_nat (length frac) in
          let digits := Z.of_nat (Nat.max 1 (length (drop_while (fun c => c =? 48) ds))) in
          if (MPD_MAX_PREC <? Z.of_nat (length frac)) || (MPD_MAX_PREC <? digits) then None
          else if (MPD_MAX_EMAX <? e + digits - 1) || (e <? MPD_MIN_ETINY) then None
          else Some (DFinite neg (digits_value 0 ds) e)
      end
  end.

(** [mpd_qset_string] on the ASCII string, with the exactness test of
    [PyDecType_FromCStringExact]; [None] when [InvalidOperation] is
    signalled. *)
Definition mpd_set_string_exact (s : pystr) : option Decimal :=
  let '(neg, body) := match s with
                      | 43 :: r => (false, r)
                      | 45 :: r => (true, r)
                      | _ => (false, s)
                      end in
  if eq_ci (take 3 body) (of_ascii "nan") then nan_payload neg false (drop 3 body)
  else if eq_ci (take 4 body) (of_ascii "snan") then nan_payload neg true (drop 4 body)
  else if eq_ci (take 3 body) (of_ascii "inf") then
    if bool_decide (drop 3 body = []) || eq_ci (drop 3 body) (of_ascii "inity")
    then Some (DInf neg) else None
  else mpd_set_finite neg body.

(** [Decimal(value)] on a string ([PyDecType_FromUnicodeExactWS]); [None]
    when it raises [InvalidOperation]. *)
Definition parse_decimal (todecimal : Z -> Z) (value : pystr) : option Decimal :=
  mpd_set_string_exact (numeric_as_ascii todecimal value).

(** [d.quantize(Decimal('0.01'))] with the default context (precision 28,
    [ROUND_HALF_EVEN]); [None] when it signals [InvalidOperation]. *)
Definition quantize_cents (d : Decimal) : option Decimal :=
  match d with
  | DFinite neg coef exp =>
      let coef' :=
        if -2 <=? exp then coef * 10 ^ (exp + 2)
        else let q := coef / 10 ^ (-2 - exp) in
             let r := coef mod 10 ^ (-2 - exp) in
             if 2 * r <? 10 ^ (-2 - exp) then q
             else if 10 ^ (-2 - exp) <? 2 * r then q + 1
             else if Z.even q then q else q + 1 in
      if 10 ^ 28 <=? coef' then None else Some (DFinite neg coef' (-2))
  | _ => None
  end.

(** [validate_price]: the ordering comparisons raise [InvalidOperation] on
    a NaN, which the [except] turns into [None]. *)
Definition validate_price (todecimal : Z -> Z) (price_str : pystr) : option Decimal :=
  match parse_decimal todecimal (price_cleaned price_str) with
  | None => None
  | Some (DNaN _ _) => None
  | Some (DInf _) => None
  | Some (DFinite neg coef exp as price) =>
      let v := finite_value neg coef exp in
      if Qle_bool v 0 || negb (Qle_bool v (inject_Z 10000000)) then None
      else quantize_cents price
  end.

(** Titles already in the form produced by [' '.join(title.split())]:
    non-empty words without whitespace separated by single spaces. *)
Inductive ws_normal : pystr -> Prop :=
| wn_word (w : pystr) :
    w <> [] -> forallb (fun c => negb (py_isspace c)) w = true -> ws_normal w
| wn_cons (w t : pystr) :
    w <> [] -> forallb (fun c => negb (py_isspace c)) w = true -> ws_normal t ->
    ws_normal (w ++ 32 :: t).

Definition no_spam (ceq : Z -> Z -> bool) (t : pystr) : Prop :=
  existsb (fun pattern => search pattern t) (spam_patterns ceq) = false.

(** Case-insensitive comparison of ASCII letters. *)
Definition ascii_ceq (a b : Z) : bool := ascii_fold a =? ascii_fold b.

(** [validate_location] *)
Definition validate_location (location : pystr) : option pystr :=
  match location with
  | [] => None
  | _ =>
      let cleaned := join_space (py_split location) in
      if Nat.ltb (length cleaned) 2 || Nat.ltb 200 (length cleaned) then None
      else Some cleaned
  end.

(** [s.split(sep)] for a one-character separator: always at least one
    piece. *)
Fixpoint split_on (sep : Z) (s : pystr) : list pystr :=
  match s with
  | [] => [[]]
  | c :: s' =>
      if c =? sep then [] :: split_on sep s'
      else match split_on sep s' with
           | w :: ws => (c :: w) :: ws
           | [] => [[c]]
           end
  end.

(** [sep.join(pieces)] for a one-character separator. *)
Fixpoint join_on (sep : Z) (ws : list pystr) : pystr :=
  match ws with
  | [] => []
  | [w] => w
  | w :: ws' => w ++ sep :: join_on sep ws'
  end.

(** What [re.sub(r'\n{3,}', '\n\n', ...)] puts in place of a maximal run
    of [n] newlines. *)
Definition flush_newlines (n : nat) : pystr :=
  if Nat.leb 3 n then [10; 10] else repeat 10 n.

(** [re.sub(r'\n{3,}', '\n\n', s)]; [n] counts the newlines of the run
    being read. *)
Fixpoint collapse_newlines (n : nat) (s : pystr) : pystr :=
  match s with
  | [] => flush_newlines n
  | c :: s' =>
      if c =? 10 then collapse_newlines (S n) s'
      else flush_newlines n ++ c :: collapse_newlines 0 s'
  end.

(** [validate_description] *)
Definition validate_description (description : pystr) : option pystr :=
  match description with
  | [] => None
  | _ =>
      let cleaned := join_on 10 (map (fun line => join_space (py_split line))
                                     (split_on 10 description)) in
      let cleaned := collapse_newlines 0 cleaned in
      if Nat.ltb (length cleaned) 10 || Nat.ltb 2000 (length cleaned) then None
      else Some cleaned
  end.

(** [re.sub(r'<[^>]+>', '', text)]: at a [<] followed by at least one
    character before the next [>], the whole tag goes; otherwise the [<]
    stays.  The fuel is the length of the text. *)
Fixpoint strip_tags_fuel (fuel : nat) (s : pystr) : pystr :=
  match fuel with
  | O => s
  | S f =>
      match s with
      | [] => []
      | c :: s' =>
          if (c =? 60) && negb (Nat.eqb (length (take_while (fun d => negb (d =? 62)) s')) 0)
             && existsb (fun d => d =? 62) s'
          then strip_tags_fuel f (drop 1 (drop_while (fun d => negb (d =? 62)) s'))
          else c :: strip_tags_fuel f s'
      end
  end.

Definition strip_tags (s : pystr) : pystr := strip_tags_fuel (length s) s.

(** [sanitize_html] *)
Definition sanitize_html (text : pystr) : pystr :=
  py_replace [62] (of_ascii "&gt;")
    (py_replace [60] (of_ascii "&lt;") (py_replace [38] (of_ascii "&amp;") (strip_tags text))).

(** [[a-zA-Z]] and [[a-zA-Z0-9_]] (no [re.IGNORECASE], so ASCII only). *)
Definition is_ascii_letter (c : Z) : bool :=
  ((65 <=? c) && (c <=? 90)) || ((97 <=? c) && (c <=? 122)).
Definition is_name_char (c : Z) : bool := is_ascii_letter c || is_digit c || (c =? 95).

(** [$] without [re.MULTILINE]: the end of the string, or just before a
    newline that ends it. *)
Definition re_dollar (s : pystr) : bool :=
  match s with
  | [] => true
  | [10] => true
  | _ => false
  end.

(** [is_valid_telegram_username]: [re.match('^[a-zA-Z][a-zA-Z0-9_]{4,31}$')]
    succeeds when some repetition count [k] in [4..31] lets the rest of the
    pattern match. *)
Definition is_valid_telegram_username (username : pystr) : bool :=
  let username := match username with 64 :: rest => rest | _ => username end in
  match username with
  | c :: rest =>
      is_ascii_letter c &&
      existsb (fun k => Nat.leb k (length rest) && forallb is_name_char (take k rest) &&
                        re_dollar (drop k rest)) (seq 4 28)
  | [] => false
  end.

End Validators.

(** ** Search ([AdService.search]) *)
Module Search.

(** [expr LIKE pattern] of PostgreSQL: [%] matches any run of characters,
    [_] any single character, and the default escape character [\] makes
    the next character literal.  A pattern ending in a lone [\] is an error
    in PostgreSQL; the patterns built by [search] never end that way. *)
Fixpoint like (p : pystr) : pystr -> bool :=
  match p with
  | [] => fun s => match s with [] => true | _ => false end
  | 37 :: p' =>
      fix like_pct (s : pystr) : bool :=
        like p' s || match s with [] => false | _ :: s' => like_pct s' end
  | 95 :: p' => fun s => match s with [] => false | _ :: s' => like p' s' end
  | 92 :: c :: p' => fun s => match s with [] => false | d :: s' => (d =? c) && like p' s' end
  | 92 :: [] => fun _ => false
  | c :: p' => fun s => match s with [] => false | d :: s' => (d =? c) && like p' s' end
  end.

(** [ORDER BY created_at DESC]: insertion into a list sorted by decreasing
    [created_at]. *)
Fixpoint insert_desc (a : Ad) (l : list Ad) : list Ad :=
  match l with
  | [] => [a]
  | b :: l' => if created_at b <? created_at a then a :: l else b :: insert_desc a l'
  end.

Fixpoint sort_desc (l : list Ad) : list Ad :=
  match l with
  | [] => []
  | a :: l' => insert_desc a (sort_desc l')
  end.

(** An order PostgreSQL may return the rows of [ORDER BY created_at DESC]
    in: any arrangement newest first; rows with equal [created_at] come in
    no fixed order, which may differ from one query to the next. *)
Definition valid_order (order_by : list Ad -> list Ad) : Prop :=
  forall l, order_by l ≡ₚ l /\ Sorted newer (order_by l).

Section Query.

(** [str.lower] in Python and [lower()] in SQL. *)
Variable py_lower : pystr -> pystr.
Variable sql_lower : pystr -> pystr.

(** The [WHERE] clause built by [search]. *)
Definition search_where (keywords location0 category0 : option pystr)
    (min_price max_price : option Q) (a : Ad) : bool :=
  is_status ACTIVE a &&
  match keywords with
  | Some k =>
      if truthy_str (Some k) then
        let search_term := 37 :: py_lower k ++ [37] in
        like search_term (sql_lower (title a)) || like search_term (sql_lower (description a))
      else true
  | None => true
  end &&
  match location0 with
  | Some l =>
      if truthy_str (Some l) then like (37 :: py_lower l ++ [37]) (sql_lower (location a))
      else true
  | None => true
  end &&
  match category0 with
  | Some c => if truthy_str (Some c) then pystr_eqb (category a) c else true
  | None => true
  end &&
  match min_price with Some m => Qle_bool m (price_per_day a) | None => true end &&
  match max_price with Some m => Qle_bool (price_per_day a) m | None => true end.

(** [search(keywords, location, category, min_price, max_price, limit,
    offset)]: filter, order by recency, then [LIMIT]/[OFFSET];
    [order_by] is the arrangement the server picks for this query (see
    [valid_order]). *)
Definition search (order_by : list Ad -> list Ad) (db : DB)
    (keywords location0 category0 : option pystr)
    (min_price max_price : option Q) (limit offset : nat) : list Ad :=
  let rows := map snd (map_to_list (ads db)) in
  take limit (drop offset
    (order_by (filter (fun a => search_where keywords location0 category0
                                  min_price max_price a = true) rows))).

End Query.

End Search.

(** ** Further methods of [AdService] *)
Module AdServiceOps.

(** All rows of the [ads] table. *)
Definition rows (db : DB) : list Ad := map snd (map_to_list (ads db)).

(** [create(owner_id, title, ...)]: [new_id] is the value the
    autoincrement column gives the row and [now] the server default of
    [created_at].  The commit raises (modelled by [None]) when a value does
    not fit its column or when the foreign key [owner_id] names no user
    ([is_user]); otherwise [refresh] reloads the row as stored. *)
Definition create (db : DB) (is_user : Z -> bool) (new_id now : Z) (owner_id0 : Z)
    (title0 description0 : pystr) (price : Q) (location0 category0 contact_info0 : pystr)
    (photo_id0 : option pystr) : option (Ad * DB) :=
  match pg_varchar 200 title0, pg_numeric_10_2 price, pg_varchar 200 location0,
        pg_varchar 100 category0, pg_varchar 200 contact_info0,
        match photo_id0 with
        | None => Some None
        | Some v => Some <$> pg_varchar 200 v
        end with
  | Some t, Some p, Some l, Some c, Some ci, Some ph =>
      if is_user owner_id0 then
        let ad := mk_ad new_id t description0 p l c ci ph PENDING None 0 owner_id0 now in
        Some (ad, set_ads db (<[new_id := ad]> (ads db)))
      else None
  | _, _, _, _, _, _ => None
  end.

(** [get_user_ads(user_id, status)]: the [status] filter is applied when
    one is given (every [AdStatus] is a non-empty string, so truthy). *)
Definition get_user_ads (db : DB) (user_id0 : Z) (st : option AdStatus) : list Ad :=
  Search.sort_desc
    (filter (fun a => ((owner_id a =? user_id0) &&
                       match st with Some s => is_status s a | None => true end) = true)
       (rows db)).

(** [ORDER BY created_at ASC]: insertion into a list sorted by increasing
    [created_at]. *)
Fixpoint insert_asc (a : Ad) (l : list Ad) : list Ad :=
  match l with
  | [] => [a]
  | b :: l' => if created_at a <=? created_at b then a :: l else b :: insert_asc a l'
  end.

Fixpoint sort_asc (l : list Ad) : list Ad :=
  match l with
  | [] => []
  | a :: l' => insert_asc a (sort_asc l')
  end.

(** [get_pending()] (and [ModerationService.get_pending_ads()], the same
    query). *)
Definition get_pending (db : DB) : list Ad :=
  sort_asc (filter (fun a => is_status PENDING a = true) (rows db)).

(** [approve(ad_id)] *)
Definition approve (db : DB) (ad_id0 : Z) : bool * DB :=
  let '(rowcount, db') :=
    update_ad_where db ad_id0 (is_status PENDING) (fun r => with_status r ACTIVE) in
  (Nat.ltb 0 rowcount, db').

(** [reject(ad_id, reason)] *)
Definition reject (db : DB) (ad_id0 : Z) (reason0 : pystr) : bool * DB :=
  let '(rowcount, db') :=
    update_ad_where db ad_id0 (is_status PENDING)
      (fun r => with_rejection_reason (with_status r REJECTED) (Some reason0)) in
  (Nat.ltb 0 rowcount, db').

(** [reactivate(ad_id, owner_id)] *)
Definition reactivate (db : DB) (ad_id0 owner_id0 : Z) : bool * DB :=
  let '(rowcount, db') :=
    update_ad_where db ad_id0
      (fun r => (owner_id r =? owner_id0) && (is_status RENTED r || is_status CLOSED r))
      (fun r => with_status r ACTIVE) in
  (Nat.ltb 0 rowcount, db').

(** [delete_ad(ad_id, owner_id)]: the reports of the ad go with it
    ([ForeignKey("ads.id", ondelete="CASCADE")]). *)
Definition delete_ad (db : DB) (ad_id0 owner_id0 : Z) : bool * DB :=
  match ads db !! ad_id0 with
  | Some a =>
      if owner_id a =? owner_id0 then
        (true, mk_db (delete ad_id0 (ads db))
                 (filter (fun '(_, r) => report_ad_id r <> ad_id0) (reports db)))
      else (false, db)
  | None => (false, db)
  end.

(** The dictionary returned by [get_stats()]. *)
Record Stats := mk_stats { total : nat; active : nat; pending : nat }.

(** [get_stats()] *)
Definition get_stats (db : DB) : Stats :=
  mk_stats (length (rows db))
    (length (filter (fun a => is_status ACTIVE a = true) (rows db)))
    (length (filter (fun a => is_status PENDING a = true) (rows db))).

End AdServiceOps.

(** ** The rest of [ModerationService] *)
Module ModerationOps.
Import AdServiceOps.

(** [get_pending_ads()] is the query of [AdService.get_pending()]. *)
Definition get_pending_ads (db : DB) : list Ad := get_pending db.

(** [get_pending_count()]: [SELECT count(ads.id) WHERE status = PENDING]
    ([id] is the primary key, never NULL). *)
Definition get_pending_count (db : DB) : nat :=
  length (filter (fun a => is_status PENDING a = true) (rows db)).




End ModerationOps.

(** ** [services/notification_service.py] *)
Module Notifications.

(** The [subscriptions] table, by primary key. *)
Abbreviation SubsTable := (gmap Z Subscription).

Definition sub_rows (t : SubsTable) : list Subscription := map snd (map_to_list t).

(** What [bot.send_message] does: deliver, fail with one of the two errors
    [_send_notification] catches ([TelegramForbiddenError],
    [TelegramBadRequest]), or raise anything else, which propagates. *)
Inductive SendOutcome := Delivered | Caught | Raised.

#[global] Instance SendOutcome_eq_dec : EqDecision SendOutcome.
Proof. solve_decision. Defined.

Section Notify.

(** [str.lower], as used by [Subscription.matches_ad]. *)
Variable lower : pystr -> pystr.
(** [sub.user.telegram_id] for a [user_id]. *)
Variable telegram_of : Z -> Z.
(** The outcome of [bot.send_message] to a chat. *)
Variable outcome : Z -> SendOutcome.

(** [_send_notification(user_id, text)]: [None] when an exception escapes. *)
Definition send_notification (chat_id : Z) : option bool :=
  match outcome chat_id with
  | Delivered => Some true
  | Caught => Some false
  | Raised => None
  end.

(** The [for sub in subscriptions] loop of [notify_new_ad]. *)
Fixpoint notify_loop (ad : Ad) (subs : list Subscription) (sent_count : nat) : option nat :=
  match subs with
  | [] => Some sent_count
  | sub :: rest =>
      if negb (matches_ad lower sub ad) then notify_loop ad rest sent_count else
      match send_notification (telegram_of (user_id sub)) with
      | None => None
      | Some true => notify_loop ad rest (S sent_count)
      | Some false => notify_loop ad rest sent_count
      end
  end.

(** [notify_new_ad(ad)]: the query selects the active subscriptions of the
    other users; [None] when an exception escapes. *)
Definition notify_new_ad (t : SubsTable) (ad : Ad) : option nat :=
  notify_loop ad
    (filter (fun sub => is_active sub = true /\ user_id sub <> owner_id ad) (sub_rows t)) 0.

End Notify.

(** [SubscriptionService.get_user_subscriptions(user_id)] *)
Definition get_user_subscriptions (t : SubsTable) (user_id0 : Z) : list Subscription :=
  filter (fun sub => user_id sub = user_id0) (sub_rows t).

(** [SubscriptionService.toggle_subscription(subscription_id, user_id)] *)
Definition toggle_subscription (t : SubsTable) (subscription_id user_id0 : Z)
    : bool * SubsTable :=
  match t !! subscription_id with
  | Some sub =>
      if user_id sub =? user_id0 then
        (true, <[subscription_id := mk_subscription (keywords sub) (sub_category sub)
                   (sub_location sub) (max_price sub) (negb (is_active sub)) (user_id sub)]> t)
      else (false, t)
  | None => (false, t)
  end.

(** [SubscriptionService.delete_subscription(subscription_id, user_id)] *)
Definition delete_subscription (t : SubsTable) (subscription_id user_id0 : Z)
    : bool * SubsTable :=
  match t !! subscription_id with
  | Some sub =>
      if user_id sub =? user_id0 then (true, delete subscription_id t) else (false, t)
  | None => (false, t)
  end.

End Notifications.

(** ** [bot/handlers/moderation.py] *)
Module ModerationHandlers.

(** The database effect of [process_rejection_reason]: [text] is
    [message.text] of a text message and [rejecting_ad_id] what
    [data.get("rejecting_ad_id")] gives; with [None] the query
    [Ad.id == None] selects no row.  The answers sent to the chat are not
    modelled. *)
Definition process_rejection_reason (db : DB) (text : pystr) (rejecting_ad_id : option Z)
    (moderator_id : Z) : option Ad * DB :=
  let reason0 := Validators.py_strip text in
  if Nat.ltb (length reason0) 5 then (None, db) else
  match rejecting_ad_id with
  | None => (None, db)
  | Some ad_id0 => ModerationService.reject_ad db ad_id0 moderator_id reason0
  end.

End ModerationHandlers.

(** * Concrete inputs and auxiliary predicates *)

Definition rejected_ad : Ad :=
  mk_ad 1 (of_ascii "Drill") (of_ascii "Bosch drill 500W") (500 # 1)
    (of_ascii "Moscow") (of_ascii "Tools") (of_ascii "@owner") None REJECTED
    (Some (of_ascii "bad photo")) 0 7 0.

Definition db_rejected : DB := mk_db {[ 1 := rejected_ad ]} ∅.

Definition pending_ad : Ad := with_rejection_reason (with_status rejected_ad PENDING) None.
Definition db_pending : DB := mk_db {[ 1 := pending_ad ]} ∅.
Definition db_active : DB := mk_db {[ 1 := with_status pending_ad ACTIVE ]} ∅.

Definition pending_report : Report :=
  mk_report 5 FRAUD None R_PENDING None 3 1 None None.
Definition db_report_rented : DB :=
  mk_db {[ 1 := with_status pending_ad RENTED ]} {[ 5 := pending_report ]}.

Definition no_criteria (s : Subscription) : Prop :=
  keywords s = None /\ sub_category s = None /\ sub_location s = None /\ max_price s = None.

Definition ascii_lower_cp (c : Z) : Z := if (65 <=? c) && (c <=? 90) then c + 32 else c.
Definition ascii_lower (s : pystr) : pystr := map ascii_lower_cp s.

Definition empty_subscription : Subscription := mk_subscription None None None None true 3.

(** Each criterion of [matches_ad] checked on its own: [true] means the
    criterion rejects the ad. *)
Definition keyword_rejects (lower : pystr -> pystr) (o : option pystr) (ad : Ad) : bool :=
  match o with
  | Some k => truthy_str (Some k) && negb (py_in (lower k) (lower (title ad))) &&
              negb (py_in (lower k) (lower (description ad)))
  | None => false
  end.
Definition category_rejects (o : option pystr) (ad : Ad) : bool :=
  match o with
  | Some c => truthy_str (Some c) && negb (pystr_eqb c (category ad))
  | None => false
  end.
Definition location_rejects (lower : pystr -> pystr) (o : option pystr) (ad : Ad) : bool :=
  match o with
  | Some l => truthy_str (Some l) && negb (py_in (lower l) (lower (location ad)))
  | None => false
  end.
Definition price_rejects (o : option Q) (ad : Ad) : bool :=
  match o with
  | Some m => truthy_dec (Some m) && negb (Qle_bool (price_per_day ad) m)
  | None => false
  end.

(** [s1] is [s2] with at most a subset of its criteria: every criterion of
    [s1] is unset or equal to that of [s2]. *)
Definition fewer_criteria (s1 s2 : Subscription) : Prop :=
  (keywords s1 = None \/ keywords s1 = keywords s2) /\
  (sub_category s1 = None \/ sub_category s1 = sub_category s2) /\
  (sub_location s1 = None \/ sub_location s1 = sub_location s2) /\
  (max_price s1 = None \/ max_price s1 = max_price s2).

(** [s2] has the criteria of [s1] plus exactly one more. *)
Definition adds_one_criterion (s1 s2 : Subscription) : Prop :=
  (keywords s1 = None /\ is_Some (keywords s2) /\ sub_category s1 = sub_category s2 /\
   sub_location s1 = sub_location s2 /\ max_price s1 = max_price s2) \/
  (keywords s1 = keywords s2 /\ sub_category s1 = None /\ is_Some (sub_category s2) /\
   sub_location s1 = sub_location s2 /\ max_price s1 = max_price s2) \/
  (keywords s1 = keywords s2 /\ sub_category s1 = sub_category s2 /\
   sub_location s1 = None /\ is_Some (sub_location s2) /\ max_price s1 = max_price s2) \/
  (keywords s1 = keywords s2 /\ sub_category s1 = sub_category s2 /\
   sub_location s1 = sub_location s2 /\ max_price s1 = None /\ is_Some (max_price s2)).

Definition tools_subscription : Subscription :=
  mk_subscription None (Some (of_ascii "Tools")) None None true 3.

(** The subscription with every falsy criterion (the empty string or zero) replaced by
    [None]. *)
Definition drop_falsy (s : Subscription) : Subscription :=
  mk_subscription (if truthy_str (keywords s) then keywords s else None)
    (if truthy_str (sub_category s) then sub_category s else None)
    (if truthy_str (sub_location s) then sub_location s else None)
    (if truthy_dec (max_price s) then max_price s else None)
    (is_active s) (user_id s).

(** [Py_UNICODE_TODECIMAL] for the Unicode 14.0 database of Python 3.11:
    the decimal digits form runs of ten code points, 0 to 9, starting at
    these code points. *)
Definition decimal_zeros : list Z :=
  [48; 1632; 1776; 1984; 2406; 2534; 2662; 2790; 2918;
   3046; 3174; 3302; 3430; 3558; 3664; 3792; 3872; 4160;
   4240; 6112; 6160; 6470; 6608; 6784; 6800; 6992; 7088;
   7232; 7248; 42528; 43216; 43264; 43472; 43504; 43600; 44016;
   65296; 66720; 68912; 69734; 69872; 69942; 70096; 70384; 70736;
   70864; 71248; 71360; 71472; 71904; 72016; 72784; 73040; 73120;
   92768; 92864; 93008; 120782; 120792; 120802; 120812; 120822; 123200;
   123632; 125264; 130032].

Definition unicode_todecimal (c : Z) : Z :=
  match List.find (fun z => (z <=? c) && (c <? z + 10)) decimal_zeros with
  | Some z => c - z
  | None => -1
  end.

Definition title3 : pystr := of_ascii "Saw".
Definition title200 : pystr := concat (repeat (of_ascii "ab") 100).

Definition db_closed : DB := mk_db {[ 1 := with_status pending_ad CLOSED ]} ∅.

Definition abc_ad : Ad :=
  mk_ad 2 (of_ascii "abc") (of_ascii "xyz") (100 # 1) (of_ascii "Moscow")
    (of_ascii "Tools") (of_ascii "@owner") None ACTIVE None 0 7 10.

Definition db_search : DB := mk_db {[ 2 := abc_ad ]} ∅.

Definition bike_ad : Ad :=
  mk_ad 3 (of_ascii "Bike") (of_ascii "City bike") (200 # 1) (of_ascii "Kazan")
    (of_ascii "Sport") (of_ascii "@owner") None ACTIVE None 0 7 20.

Definition db_two : DB := mk_db {[ 2 := abc_ad; 3 := bike_ad ]} ∅.

(** * Properties *)

Ltac unfold_services :=
  unfold AdService.update_ad, AdService.set_status, AdService.get_by_id,
    ModerationService.approve_ad, ModerationService.reject_ad,
    ModerationService.review_report, update_ad_where, select_ad_where,
    is_status, set_ads, set_reports in *.

(** ** Editing an ad ([AdService.update_ad]) *)

Lemma filter_allowed_nil (fields : list AdService.Kwarg) :
  Forall (fun k => AdService.allowed k = false) fields ->
  filter (fun k => AdService.allowed k = true) fields = [].
Proof.
  induction 1 as [|k fs Hk _ IH]; [done|].
  rewrite filter_cons_False; [done|]. rewrite Hk. discriminate.
Qed.

Lemma filter_allowed_cons (fields : list AdService.Kwarg) :
  Exists (fun k => AdService.allowed k = true) fields ->
  exists k ks, filter (fun k => AdService.allowed k = true) fields = k :: ks.
Proof.
  induction 1 as [k fs Hk|k fs _ [k' [ks IH]]].
  - rewrite filter_cons_True by done. eauto.
  - destruct (AdService.allowed k) eqn:E.
    + rewrite filter_cons_True by done. eauto.
    + rewrite filter_cons_False by (rewrite E; discriminate). eauto.
Qed.

Lemma assign_fold_keys (a : Ad) (l : list AdService.Kwarg) :
  ad_id (foldl AdService.assign a l) = ad_id a /\
  owner_id (foldl AdService.assign a l) = owner_id a.
Proof.
  revert a. induction l as [|k l IH]; intros a; [done|].
  simpl. destruct (IH (AdService.assign a k)) as [-> ->]. destruct k; done.
Qed.

Lemma store_all_None (l : list AdService.Kwarg) :
  AdService.store_all l = None <-> Exists (fun k => AdService.store k = None) l.
Proof.
  induction l as [|k l IH]; simpl.
  - split; [discriminate|]. intros H. inversion H.
  - rewrite Exists_cons, <- IH.
    destruct (AdService.store k), (AdService.store_all l); intuition congruence.
Qed.

Lemma Exists_filter_allowed (P : AdService.Kwarg -> Prop) (l : list AdService.Kwarg) :
  Exists P (filter (fun k => AdService.allowed k = true) l) <->
  Exists (fun k => AdService.allowed k = true /\ P k) l.
Proof.
  induction l as [|k l IH]; [split; intros H; inversion H|].
  destruct (AdService.allowed k) eqn:E.
  - rewrite filter_cons_True by done. rewrite !Exists_cons, IH. intuition.
  - rewrite filter_cons_False by (rewrite E; discriminate). rewrite Exists_cons, IH.
    intuition congruence.
Qed.

(** C1 (counterexample): the owner edits a REJECTED ad passing only a
    keyword outside the allow-list; the call returns [False] and the ad stays
    REJECTED with its rejection reason.  And an edit by the owner whose
    contact is 201 characters long raises: [contact_info] is a
    [VARCHAR(200)] column. *)
Lemma update_ad_owner_no_fields_not_pending :
  AdService.update_ad db_rejected 1 7 [AdService.KwOther (of_ascii "status")]
    = Some (false, db_rejected) /\
  option_map status (ads db_rejected !! 1) = Some REJECTED /\
  option_map rejection_reason (ads db_rejected !! 1) = Some (Some (of_ascii "bad photo")) /\
  AdService.update_ad db_rejected 1 7 [AdService.KwContactInfo (repeat 97 201)] = None.
Proof. vm_compute. auto. Qed.

(** C1 (amended): an edit by the owner that supplies at least one
    allow-listed field raises exactly when one of those values does not fit
    its column, and otherwise sets the ad to PENDING with no rejection
    reason, whatever its previous status, and returns [True]; an owner's
    edit with no allow-listed field returns [False] and changes nothing, and
    so does an edit by anybody else (or of a missing ad). *)
Theorem update_ad_resubmits (db : DB) (ad_id0 editor : Z) (fields : list AdService.Kwarg) :
  (forall a, ads db !! ad_id0 = Some a -> owner_id a = editor ->
     Exists (fun k => AdService.allowed k = true) fields ->
     (AdService.update_ad db ad_id0 editor fields = None <->
        Exists (fun k => AdService.allowed k = true /\ AdService.store k = None) fields) /\
     (forall r, AdService.update_ad db ad_id0 editor fields = Some r ->
        exists a', r = (true, set_ads db (<[ad_id0 := a']> (ads db))) /\
          status a' = PENDING /\ rejection_reason a' = None /\
          ad_id a' = ad_id a /\ owner_id a' = owner_id a)) /\
  (forall a, ads db !! ad_id0 = Some a -> owner_id a = editor ->
     Forall (fun k => AdService.allowed k = false) fields ->
     AdService.update_ad db ad_id0 editor fields = Some (false, db)) /\
  ((forall a, ads db !! ad_id0 = Some a -> owner_id a <> editor) ->
     AdService.update_ad db ad_id0 editor fields = Some (false, db)).
Proof.
  split; [|split].
  - intros a Ha Ho Hex. destruct (filter_allowed_cons fields Hex) as (k & ks & Hf).
    rewrite <- (Exists_filter_allowed (fun k => AdService.store k = None)), Hf,
      <- store_all_None.
    unfold_services. rewrite Ha, Ho, Z.eqb_refl, Hf.
    destruct (AdService.store_all (k :: ks)) as [stored|] eqn:Hs.
    + split; [split; discriminate|]. intros r [= <-]. simpl.
      eexists. split; [reflexivity|]. simpl.
      destruct (assign_fold_keys a stored) as [H1 H2]. subst editor. auto.
    + split; [done|]. discriminate.
  - intros a Ha Ho Hall. unfold_services.
    rewrite Ha, Ho, Z.eqb_refl, (filter_allowed_nil fields Hall). done.
  - intros Hno. unfold_services. destruct (ads db !! ad_id0) as [a|] eqn:Ha; [|done].
    specialize (Hno a eq_refl). apply Z.eqb_neq in Hno. rewrite Hno. done.
Qed.

Lemma update_ad_resubmits_witness :
  AdService.update_ad db_rejected 1 7 [AdService.KwContactInfo (repeat 97 201)] = None /\
  (exists a', AdService.update_ad db_rejected 1 7 [AdService.KwTitle (of_ascii "Drill 2")]
                = Some (true, set_ads db_rejected (<[1 := a']> (ads db_rejected))) /\
              status a' = PENDING /\ rejection_reason a' = None) /\
  AdService.update_ad db_rejected 1 8 [AdService.KwTitle (of_ascii "Drill 2")]
    = Some (false, db_rejected).
Proof.
  destruct (update_ad_resubmits db_rejected 1 7 [AdService.KwContactInfo (repeat 97 201)])
    as [Hc _].
  destruct (update_ad_resubmits db_rejected 1 7 [AdService.KwTitle (of_ascii "Drill 2")])
    as [Hown _].
  destruct (update_ad_resubmits db_rejected 1 8 [AdService.KwTitle (of_ascii "Drill 2")])
    as [_ [_ Hother]].
  split; [|split].
  - apply (Hc rejected_ad eq_refl eq_refl); [constructor; reflexivity|].
    constructor. split; [reflexivity|vm_compute; reflexivity].
  - destruct (Hown rejected_ad eq_refl eq_refl) as [_ Hs]; [constructor; reflexivity|].
    destruct (Hs _ eq_refl) as (a' & Heq & Hst & Hr & _).
    exists a'. rewrite <- Heq. auto.
  - apply Hother. intros a Ha. vm_compute in Ha. inversion Ha. discriminate.
Defined.

(** C10: an edit by the owner that supplies no allow-listed field returns
    [False] and leaves the tables unchanged: the ad keeps its status and its
    rejection reason. *)
Theorem update_ad_no_allowed_fields_noop (db : DB) (ad_id0 editor : Z)
    (fields : list AdService.Kwarg) (a : Ad) :
  ads db !! ad_id0 = Some a -> owner_id a = editor ->
  Forall (fun k => AdService.allowed k = false) fields ->
  AdService.update_ad db ad_id0 editor fields = Some (false, db).
Proof.
  intros Ha Ho Hall. unfold_services.
  rewrite Ha, Ho, Z.eqb_refl, (filter_allowed_nil fields Hall). done.
Qed.

Lemma update_ad_no_allowed_fields_noop_witness :
  AdService.update_ad db_rejected 1 7
    [AdService.KwOther (of_ascii "status"); AdService.KwOther (of_ascii "views_count")]
    = Some (false, db_rejected).
Proof.
  apply (update_ad_no_allowed_fields_noop db_rejected 1 7 _ rejected_ad).
  - reflexivity.
  - reflexivity.
  - repeat constructor.
Defined.

(** ** Owner status changes ([AdService.set_status]) *)

(** C4: the status is changed exactly when the target is RENTED or CLOSED,
    the caller owns the ad and the ad is ACTIVE; in every other case the
    call returns [False] and changes nothing. *)
Theorem set_status_guarded (db : DB) (ad_id0 caller : Z) (target : AdStatus) :
  (forall a, ads db !! ad_id0 = Some a ->
     (target = RENTED \/ target = CLOSED) -> owner_id a = caller -> status a = ACTIVE ->
     AdService.set_status db ad_id0 caller target
       = (true, set_ads db (<[ad_id0 := with_status a target]> (ads db)))) /\
  (~ (exists a, ads db !! ad_id0 = Some a /\
        (target = RENTED \/ target = CLOSED) /\ owner_id a = caller /\ status a = ACTIVE) ->
     AdService.set_status db ad_id0 caller target = (false, db)).
Proof.
  split.
  - intros a Ha Ht Ho Hs. unfold_services.
    destruct Ht as [-> | ->]; simpl; rewrite Ha, Ho, Z.eqb_refl, Hs; done.
  - intros Hno. unfold_services.
    destruct (bool_decide (target = RENTED) || bool_decide (target = CLOSED)) eqn:Ht;
      [|done].
    simpl. destruct (ads db !! ad_id0) as [a|] eqn:Ha; [|done].
    destruct (owner_id a =? caller) eqn:Ho; [|done].
    destruct (bool_decide (status a = ACTIVE)) eqn:Hs; [|done].
    exfalso. apply Hno. exists a. split; [done|].
    apply orb_true_iff in Ht. rewrite !bool_decide_eq_true in Ht.
    apply Z.eqb_eq in Ho. apply bool_decide_eq_true in Hs. done.
Qed.

Lemma set_status_guarded_witness :
  AdService.set_status db_pending 1 7 RENTED = (false, db_pending) /\
  AdService.set_status db_active 1 7 RENTED
    = (true, set_ads db_active (<[1 := with_status (with_status pending_ad ACTIVE) RENTED]>
                                  (ads db_active))).
Proof.
  split.
  - apply (proj2 (set_status_guarded db_pending 1 7 RENTED)).
    intros (a & Ha & _ & _ & Hs). vm_compute in Ha. inversion Ha. subst a.
    discriminate.
  - apply (proj1 (set_status_guarded db_active 1 7 RENTED)); auto.
Defined.

(** ** Moderation of ads ([ModerationService.approve_ad]) *)

(** C2: [approve_ad] succeeds, returning the ad as ACTIVE, exactly when the
    ad exists and is PENDING; otherwise it returns [None] and changes
    nothing; a second approval of the same ad always returns [None]. *)
Theorem approve_ad_exactly_once (db : DB) (ad_id0 moderator moderator' : Z) :
  (forall a, ads db !! ad_id0 = Some a -> status a = PENDING ->
     ModerationService.approve_ad db ad_id0 moderator
       = (Some (with_status a ACTIVE),
          set_ads db (<[ad_id0 := with_status a ACTIVE]> (ads db)))) /\
  ((forall a, ads db !! ad_id0 = Some a -> status a <> PENDING) ->
     ModerationService.approve_ad db ad_id0 moderator = (None, db)) /\
  fst (ModerationService.approve_ad
         (snd (ModerationService.approve_ad db ad_id0 moderator)) ad_id0 moderator')
    = None.
Proof.
  split; [|split].
  - intros a Ha Hs. unfold_services. rewrite Ha, Hs. done.
  - intros Hno. unfold_services. destruct (ads db !! ad_id0) as [a|] eqn:Ha; [|done].
    specialize (Hno a eq_refl). rewrite bool_decide_false by done. done.
  - unfold_services. destruct (ads db !! ad_id0) as [a|] eqn:Ha.
    + destruct (bool_decide (status a = PENDING)) eqn:Hs; simpl.
      * rewrite lookup_insert_eq. done.
      * rewrite Ha, Hs. done.
    + simpl. rewrite Ha. done.
Qed.

Lemma approve_ad_exactly_once_witness :
  ModerationService.approve_ad db_pending 1 99
    = (Some (with_status pending_ad ACTIVE),
       set_ads db_pending (<[1 := with_status pending_ad ACTIVE]> (ads db_pending))) /\
  ModerationService.approve_ad db_active 1 99 = (None, db_active).
Proof.
  split.
  - apply (proj1 (approve_ad_exactly_once db_pending 1 99 99)); reflexivity.
  - apply (proj1 (proj2 (approve_ad_exactly_once db_active 1 99 99))).
    intros a Ha. vm_compute in Ha. inversion Ha. discriminate.
Defined.

(** ** Rejection ([ModerationService.reject_ad]) *)

(** C8 (counterexample): [reject_ad] does not check its reason; with an
    empty reason on a PENDING ad it succeeds and stores the empty reason. *)
Lemma reject_ad_empty_reason_succeeds :
  ModerationService.reject_ad db_pending 1 99 []
    = (Some (with_rejection_reason (with_status pending_ad REJECTED) (Some [])),
       set_ads db_pending
         (<[1 := with_rejection_reason (with_status pending_ad REJECTED) (Some [])]>
            (ads db_pending))).
Proof. reflexivity. Qed.

(** C8 (amended): [reject_ad] itself accepts any reason (its caller, the
    moderation handler, refuses reasons shorter than 5 characters); when the
    ad exists and is PENDING it becomes REJECTED with the given reason as
    [rejection_reason]; otherwise [None] is returned and nothing changes. *)
Theorem reject_ad_conditional (db : DB) (ad_id0 moderator : Z) (reason0 : pystr) :
  (forall a, ads db !! ad_id0 = Some a -> status a = PENDING ->
     exists a', ModerationService.reject_ad db ad_id0 moderator reason0
                  = (Some a', set_ads db (<[ad_id0 := a']> (ads db))) /\
                status a' = REJECTED /\ rejection_reason a' = Some reason0) /\
  ((forall a, ads db !! ad_id0 = Some a -> status a <> PENDING) ->
     ModerationService.reject_ad db ad_id0 moderator reason0 = (None, db)).
Proof.
  split.
  - intros a Ha Hs. unfold_services. rewrite Ha, Hs. simpl. eauto.
  - intros Hno. unfold_services. destruct (ads db !! ad_id0) as [a|] eqn:Ha; [|done].
    specialize (Hno a eq_refl). rewrite bool_decide_false by done. done.
Qed.

Lemma reject_ad_conditional_witness :
  (exists a', ModerationService.reject_ad db_pending 1 99 (of_ascii "blurry photo")
                = (Some a', set_ads db_pending (<[1 := a']> (ads db_pending))) /\
              status a' = REJECTED /\ rejection_reason a' = Some (of_ascii "blurry photo")) /\
  ModerationService.reject_ad db_active 1 99 (of_ascii "blurry photo") = (None, db_active).
Proof.
  split.
  - apply (proj1 (reject_ad_conditional db_pending 1 99 (of_ascii "blurry photo")) pending_ad);
      reflexivity.
  - apply (proj2 (reject_ad_conditional db_active 1 99 (of_ascii "blurry photo"))).
    intros a Ha. vm_compute in Ha. inversion Ha. discriminate.
Defined.

(** ** Reports ([ModerationService.review_report]) *)



(** ** Subscription matching ([Subscription.matches_ad]) *)

(** C5: a subscription with no keyword, category, location or maximum
    price matches every ad (for any implementation of [str.lower]). *)
Theorem matches_ad_no_criteria (lower : pystr -> pystr) (s : Subscription) (ad : Ad) :
  no_criteria s -> matches_ad lower s ad = true.
Proof. intros (Hk & Hc & Hl & Hp). unfold matches_ad. rewrite Hk, Hc, Hl, Hp. done. Qed.

Lemma matches_ad_no_criteria_witness :
  no_criteria empty_subscription /\ matches_ad ascii_lower empty_subscription rejected_ad = true.
Proof.
  assert (H : no_criteria empty_subscription) by (repeat split).
  split; [exact H|]. apply (matches_ad_no_criteria ascii_lower _ _ H).
Defined.

Lemma matches_ad_criteria (lower : pystr -> pystr) (s : Subscription) (ad : Ad) :
  matches_ad lower s ad =
    negb (keyword_rejects lower (keywords s) ad || category_rejects (sub_category s) ad ||
          location_rejects lower (sub_location s) ad || price_rejects (max_price s) ad).
Proof.
  unfold matches_ad, keyword_rejects, category_rejects, location_rejects, price_rejects.
  destruct (match keywords s with Some k => _ | None => false end);
  destruct (match sub_category s with Some c => _ | None => false end);
  destruct (match sub_location s with Some l => _ | None => false end);
  destruct (match max_price s with Some m => _ | None => false end); done.
Qed.

Lemma matches_ad_fewer_criteria (lower : pystr -> pystr) (s1 s2 : Subscription) (ad : Ad) :
  fewer_criteria s1 s2 -> matches_ad lower s2 ad = true -> matches_ad lower s1 ad = true.
Proof.
  intros (Hk & Hc & Hl & Hp). rewrite !matches_ad_criteria.
  rewrite !negb_true_iff, !orb_false_iff. intros [[[Hk2 Hc2] Hl2] Hp2].
  destruct Hk as [Hk|Hk], Hc as [Hc|Hc], Hl as [Hl|Hl], Hp as [Hp|Hp];
    rewrite Hk, Hc, Hl, Hp; simpl; auto.
Qed.

(** C6: adding one criterion to a subscription can only narrow the set of
    ads it matches. *)
Theorem matches_ad_monotonic (lower : pystr -> pystr) (s1 s2 : Subscription) (ad : Ad) :
  adds_one_criterion s1 s2 -> matches_ad lower s2 ad = true -> matches_ad lower s1 ad = true.
Proof.
  intros Hadd. apply matches_ad_fewer_criteria.
  unfold fewer_criteria.
  destruct Hadd as [(?&?&?&?&?)|[(?&?&?&?&?)|[(?&?&?&?&?)|(?&?&?&?&?)]]]; auto 10.
Qed.

Lemma matches_ad_monotonic_witness :
  adds_one_criterion empty_subscription tools_subscription /\
  matches_ad ascii_lower tools_subscription rejected_ad = true /\
  matches_ad ascii_lower empty_subscription rejected_ad = true.
Proof.
  assert (Hadd : adds_one_criterion empty_subscription tools_subscription).
  { right; left. repeat split. eexists. reflexivity. }
  assert (Hm : matches_ad ascii_lower tools_subscription rejected_ad = true)
    by reflexivity.
  split; [exact Hadd|]. split; [exact Hm|].
  exact (matches_ad_monotonic ascii_lower _ _ _ Hadd Hm).
Defined.

(** ** Field validation ([utils/validators.py]) *)
Module ValidatorFacts.
Import Validators.

Lemma take_while_all (f : Z -> bool) (s : pystr) : forallb f (take_while f s) = true.
Proof.
  induction s as [|c s IH]; simpl; [done|]. destruct (f c) eqn:E; simpl; [|done].
  by rewrite E, IH.
Qed.

Lemma digits_value_nonneg (acc : Z) (ds : pystr) :
  0 <= acc -> forallb is_digit ds = true -> 0 <= digits_value acc ds.
Proof.
  revert acc. induction ds as [|d ds IH]; intros acc Ha Hd; simpl; [done|].
  simpl in Hd. apply andb_true_iff in Hd as [Hd Hds]. unfold is_digit in Hd.
  apply andb_true_iff in Hd as [H1 H2]. apply Z.leb_le in H1. apply Z.leb_le in H2.
  apply IH; [lia|done].
Qed.

Lemma frac_digits (r1 : pystr) :
  forallb is_digit (fst (match r1 with
                         | 46 :: r => (take_while is_digit r, drop_while is_digit r)
                         | _ => ([], r1)
                         end)) = true.
Proof.
  destruct r1 as [|c r]; [done|].
  repeat case_match; simplify_eq; simpl; try done; apply take_while_all.
Qed.

Lemma mpd_set_finite_coef (neg : bool) (body : pystr) (n : bool) (coef exp : Z) :
  mpd_set_finite neg body = Some (DFinite n coef exp) -> n = neg /\ 0 <= coef.
Proof.
  unfold mpd_set_finite. intros H. cbv zeta in H.
  pose proof (frac_digits (drop_while is_digit body)) as Hf.
  match type of H with context [let '(_, _) := ?X in _] => destruct X as [frac r2] end.
  simpl in Hf.
  destruct (take_while is_digit body ++ frac) as [|z l] eqn:E; [discriminate|].
  destruct (parse_exponent r2); [|discriminate].
  repeat match type of H with context [if ?b then _ else _] => destruct b end;
    try discriminate.
  inversion H; subst. split; [done|].
  change (0 <= digits_value 0 (z :: l)). apply digits_value_nonneg; [lia|].
  rewrite <- E, forallb_app, take_while_all, Hf. done.
Qed.

Lemma parse_decimal_coef_nonneg (todecimal : Z -> Z) (s : pystr) (neg : bool) (coef exp : Z) :
  parse_decimal todecimal s = Some (DFinite neg coef exp) -> 0 <= coef.
Proof.
  unfold parse_decimal, mpd_set_string_exact.
  generalize (numeric_as_ascii todecimal s) as a. intros a H.
  match type of H with context [let '(_, _) := ?X in _] => destruct X as [ng body] end.
  unfold nan_payload in H.
  repeat match type of H with context [if ?b then _ else _] => destruct b end;
    try discriminate.
  by apply mpd_set_finite_coef in H as [_ ?].
Qed.

Lemma finite_value_neg_nonpos (coef exp : Z) :
  0 <= coef -> Qle (finite_value true coef exp) 0.
Proof.
  intros Hc. unfold finite_value. destruct (0 <=? exp).
  - unfold Qle. simpl. assert (0 <= 10 ^ exp) by (apply Z.pow_nonneg; lia). nia.
  - unfold Qle. simpl. lia.
Qed.

Lemma quantize_cents_ten_million (coef exp : Z) :
  Qeq (finite_value false coef exp) (inject_Z 10000000) ->
  quantize_cents (DFinite false coef exp) = Some (DFinite false 1000000000 (-2)).
Proof.
  unfold finite_value, quantize_cents. cbv zeta. intros Hv. revert Hv.
  destruct (Z.leb_spec (-2) exp) as [He|He].
  - destruct (Z.leb_spec 0 exp) as [H0|H0]; intros Hv.
    + unfold Qeq in Hv. simpl in Hv.
      assert (coef * 10 ^ (exp + 2) = 1000000000) as ->; [|reflexivity].
      rewrite Z.pow_add_r by lia. change (10 ^ 2) with 100. lia.
    + assert (exp = -1 \/ exp = -2) as [-> | ->] by lia;
        unfold Qeq in Hv; simpl in Hv |- *;
        (assert (coef = 100000000 \/ coef = 1000000000) as [-> | ->] by lia);
        first [reflexivity | lia].
  - destruct (Z.leb_spec 0 exp) as [H0|H0]; [lia|]. intros Hv.
    unfold Qeq in Hv. simpl in Hv.
    assert (HP : 0 < 10 ^ (-2 - exp)) by (apply Z.pow_pos_nonneg; lia).
    rewrite Z2Pos.id in Hv by (apply Z.pow_pos_nonneg; lia).
    assert (H100 : 10 ^ (- exp) = 10 ^ (-2 - exp) * 100).
    { replace (- exp) with ((-2 - exp) + 2) by lia. rewrite Z.pow_add_r by lia. done. }
    remember (10 ^ (-2 - exp)) as P eqn:EP.
    assert (coef = 1000000000 * P) as -> by lia.
    rewrite Z.div_mul, Z.mod_mul by lia.
    destruct (Z.ltb_spec (2 * 0) P); [reflexivity|lia].
Qed.

Lemma join_space_cons_le (w : pystr) (ws : list pystr) :
  (length (join_space (w :: ws)) <= length w + 1 + length (join_space ws))%nat.
Proof. destruct ws; simpl; rewrite ?length_app; simpl; lia. Qed.

Lemma split_aux_length (s cur : pystr) :
  (length (join_space (split_aux s cur)) <= length s + length cur)%nat.
Proof.
  revert cur. induction s as [|c s IH]; intros cur; simpl.
  - destruct cur; simpl; rewrite ?length_app, ?length_rev; simpl; lia.
  - destruct (py_isspace c).
    + destruct cur as [|c' cur'].
      * specialize (IH []). simpl in *. lia.
      * etransitivity; [apply join_space_cons_le|].
        specialize (IH []). rewrite length_rev. simpl in *. lia.
    + specialize (IH (c :: cur)). simpl in *. lia.
Qed.

Lemma cleaned_length (t : pystr) : (length (join_space (py_split t)) <= length t)%nat.
Proof. unfold py_split. pose proof (split_aux_length t []). simpl in *. lia. Qed.

Lemma split_aux_word (w rest cur : pystr) :
  forallb (fun c => negb (py_isspace c)) w = true ->
  split_aux (w ++ rest) cur = split_aux rest (rev w ++ cur).
Proof.
  revert cur. induction w as [|c w IH]; intros cur Hw; [done|].
  simpl in Hw. apply andb_true_iff in Hw as [Hc Hw]. apply negb_true_iff in Hc.
  simpl. rewrite Hc, IH by done. rewrite <- app_assoc. done.
Qed.

Lemma split_normal (t : pystr) :
  ws_normal t -> exists ws, py_split t = ws /\ ws <> [] /\ join_space ws = t.
Proof.
  unfold py_split. induction 1 as [w Hne Hw|w t Hne Hw _ (ws & Hs & Hwsne & Hj)].
  - exists [w]. split; [|done].
    rewrite <- (app_nil_r w) at 1. rewrite split_aux_word by done.
    rewrite app_nil_r. simpl. destruct (rev w) eqn:E.
    + apply (f_equal (@rev Z)) in E. rewrite rev_involutive in E. done.
    + rewrite <- E, rev_involutive. done.
  - exists (w :: ws). split; [|split; [done|]].
    + rewrite split_aux_word by done. rewrite app_nil_r. simpl.
      destruct (rev w) eqn:E.
      * apply (f_equal (@rev Z)) in E. rewrite rev_involutive in E. done.
      * rewrite <- E, rev_involutive, Hs. done.
    + destruct ws; [done|]. simpl in *. rewrite Hj. done.
Qed.

Lemma clean_normal (t : pystr) : ws_normal t -> join_space (py_split t) = t.
Proof. intros H. destruct (split_normal t H) as (ws & -> & _ & ->). done. Qed.

Lemma normal_nonempty (t : pystr) : ws_normal t -> t <> [].
Proof. destruct 1; [done|]. destruct w; done. Qed.

(** C7 (counterexample): the three-character title of three spaces is
    rejected, and the 201-character title made of a space and 100 copies
    of "ab" is accepted. *)
Lemma validate_title_boundary_fails :
  length (of_ascii "   ") = 3%nat /\ validate_title ascii_ceq (of_ascii "   ") = None /\
  length (32 :: concat (repeat (of_ascii "ab") 100)) = 201%nat /\
  validate_title ascii_ceq (32 :: concat (repeat (of_ascii "ab") 100))
    = Some (concat (repeat (of_ascii "ab") 100)).
Proof. vm_compute. auto. Qed.

Lemma validate_title_len2 (ceq : Z -> Z -> bool) (t : pystr) :
  length t = 2%nat -> validate_title ceq t = None.
Proof.
  intros Hl. pose proof (cleaned_length t) as Hc. unfold validate_title.
  destruct t as [|c t]; [done|].
  assert (Nat.ltb (length (join_space (py_split (c :: t)))) 3 = true) as ->
    by (apply Nat.ltb_lt; lia).
  done.
Qed.

Lemma validate_title_normal (ceq : Z -> Z -> bool) (t : pystr) :
  ws_normal t ->
  validate_title ceq t =
    if Nat.ltb (length t) 3 || Nat.ltb 200 (length t) then None
    else if existsb (fun pattern => search pattern t) (spam_patterns ceq) then None
    else Some t.
Proof.
  intros Hn. unfold validate_title. rewrite clean_normal by done.
  destruct t; [by apply normal_nonempty in Hn|]. done.
Qed.

(** C7 (amended): whitespace is normalised before the length check; every
    title of 2 characters and every whitespace-normalised title of 201
    characters is rejected, and every whitespace-normalised title of 3 or
    200 characters that contains none of the spam patterns is accepted
    unchanged.  A price string whose [Decimal] conversion (after the
    cleaning) is exactly 10,000,000 is accepted as 10000000.00, and one
    whose conversion is non-positive is rejected; this holds for every
    table of Unicode decimal digits. *)
Theorem validators_boundaries (ceq : Z -> Z -> bool) (todecimal : Z -> Z)
    (t price_str : pystr) :
  (length t = 2%nat -> validate_title ceq t = None) /\
  (ws_normal t -> length t = 201%nat -> validate_title ceq t = None) /\
  (ws_normal t -> (length t = 3%nat \/ length t = 200%nat) -> no_spam ceq t ->
     validate_title ceq t = Some t) /\
  (forall neg coef exp,
     parse_decimal todecimal (price_cleaned price_str) = Some (DFinite neg coef exp) ->
     (Qle (finite_value neg coef exp) 0 -> validate_price todecimal price_str = None) /\
     (Qeq (finite_value neg coef exp) (inject_Z 10000000) ->
        validate_price todecimal price_str = Some (DFinite false 1000000000 (-2)))).
Proof.
  split; [apply validate_title_len2|]. split; [|split].
  - intros Hn Hl. rewrite validate_title_normal by done. rewrite Hl. done.
  - intros Hn Hl Hs. rewrite validate_title_normal by done. unfold no_spam in Hs.
    rewrite Hs. destruct Hl as [-> | ->]; done.
  - intros neg coef exp Hp. unfold validate_price. rewrite Hp. split.
    + intros Hle. apply Qle_bool_iff in Hle. rewrite Hle. done.
    + intros Heq. pose proof (parse_decimal_coef_nonneg _ _ _ _ _ Hp) as Hc.
      destruct neg.
      * exfalso. pose proof (finite_value_neg_nonpos coef exp Hc) as Hn.
        rewrite Heq in Hn. unfold Qle in Hn. simpl in Hn. lia.
      * assert (Qle_bool (finite_value false coef exp) 0 = false) as ->.
        { apply not_true_iff_false. rewrite Qle_bool_iff, Heq. unfold Qle. simpl. lia. }
        assert (Qle_bool (finite_value false coef exp) (inject_Z 10000000) = true) as ->.
        { apply Qle_bool_iff. rewrite Heq. apply Qle_refl. }
        by apply quantize_cents_ten_million.
Qed.

Lemma validators_boundaries_witness :
  validate_title ascii_ceq title3 = Some title3 /\
  validate_title ascii_ceq title200 = Some title200 /\
  validate_title ascii_ceq (of_ascii "ab") = None /\
  validate_title ascii_ceq (title200 ++ of_ascii "a") = None /\
  validate_price unicode_todecimal (of_ascii "10000000")
    = Some (DFinite false 1000000000 (-2)) /\
  validate_price unicode_todecimal [1633; 1632; 1632; 1632; 1632; 1632; 1632; 1632]
    = Some (DFinite false 1000000000 (-2)) /\
  validate_price unicode_todecimal (of_ascii "-5") = None.
Proof.
  destruct (validators_boundaries ascii_ceq unicode_todecimal title3 (of_ascii "10000000"))
    as (_ & _ & H3 & Hp).
  destruct (validators_boundaries ascii_ceq unicode_todecimal title200
              [1633; 1632; 1632; 1632; 1632; 1632; 1632; 1632])
    as (_ & _ & H200 & Ha).
  destruct (validators_boundaries ascii_ceq unicode_todecimal (of_ascii "ab") (of_ascii "-5"))
    as (H2 & _ & _ & Hn).
  destruct (validators_boundaries ascii_ceq unicode_todecimal (title200 ++ of_ascii "a")
              (of_ascii "0"))
    as (_ & H201 & _ & _).
  split; [|split; [|split; [|split; [|split; [|split]]]]].
  - apply H3; [apply wn_word; [intros Habs; vm_compute in Habs; discriminate|reflexivity]|left; reflexivity|reflexivity].
  - apply H200; [apply wn_word; [intros Habs; vm_compute in Habs; discriminate|vm_compute; reflexivity]|
                 right; vm_compute; reflexivity|vm_compute; reflexivity].
  - apply H2. reflexivity.
  - apply H201; [apply wn_word; [intros Habs; vm_compute in Habs; discriminate|vm_compute; reflexivity]|
                 vm_compute; reflexivity].
  - apply (proj2 (Hp false 10000000 0 ltac:(vm_compute; reflexivity))). reflexivity.
  - apply (proj2 (Ha false 10000000 0 ltac:(vm_compute; reflexivity))). reflexivity.
  - apply (proj1 (Hn true 5 0 ltac:(vm_compute; reflexivity))). vm_compute. discriminate.
Defined.

End ValidatorFacts.

(** ** Search ([AdService.search]) *)

(** C9 (failing input): the keyword is turned into a [LIKE] pattern without
    escaping, so [_] and [%] in it act as wildcards.  Searching for "a_c"
    returns the ACTIVE ad titled "abc" with description "xyz", although
    "a_c" is a substring of neither.  The ad is the only row the [WHERE]
    clause keeps, so the server returns it whatever order it picks. *)
Lemma search_keyword_wildcard :
  Search.search ascii_lower ascii_lower Search.sort_desc db_search (Some (of_ascii "a_c"))
    None None None None 50 0 = [abc_ad] /\
  filter (fun a => Search.search_where ascii_lower ascii_lower (Some (of_ascii "a_c"))
                     None None None None a = true)
    (map snd (map_to_list (ads db_search))) = [abc_ad] /\
  py_in (ascii_lower (of_ascii "a_c")) (ascii_lower (title abc_ad)) = false /\
  py_in (ascii_lower (of_ascii "a_c")) (ascii_lower (description abc_ad)) = false.
Proof. vm_compute. auto. Qed.

(** * Further properties of the ad service *)
Module AdServiceFacts.
Import AdServiceOps.

Lemma db_eta (db : DB) : mk_db (ads db) (reports db) = db.
Proof. by destruct db. Qed.

Lemma reactivate_owner_step (db : DB) (ad_id0 caller : Z) (a : Ad) :
  ads db !! ad_id0 = Some a -> owner_id a = caller ->
  (status a = RENTED \/ status a = CLOSED) ->
  reactivate db ad_id0 caller
    = (true, set_ads db (<[ad_id0 := with_status a ACTIVE]> (ads db))).
Proof.
  unfold reactivate, update_ad_where, is_status.
  intros Ha Ho Hs. rewrite Ha, Ho, Z.eqb_refl.
  destruct Hs as [Hs|Hs]; rewrite Hs; done.
Qed.

(** [reactivate] moves an ad back to ACTIVE exactly when the caller owns it
    and it is RENTED or CLOSED; otherwise it returns [False] and changes
    nothing. *)
Theorem reactivate_guarded (db : DB) (ad_id0 caller : Z) :
  (forall a, ads db !! ad_id0 = Some a -> owner_id a = caller ->
     (status a = RENTED \/ status a = CLOSED) ->
     reactivate db ad_id0 caller
       = (true, set_ads db (<[ad_id0 := with_status a ACTIVE]> (ads db)))) /\
  (~ (exists a, ads db !! ad_id0 = Some a /\ owner_id a = caller /\
        (status a = RENTED \/ status a = CLOSED)) ->
     reactivate db ad_id0 caller = (false, db)).
Proof.
  split; [apply reactivate_owner_step|].
  unfold reactivate, update_ad_where, is_status.
  intros Hno. destruct (ads db !! ad_id0) as [a|] eqn:Ha; [|done].
  destruct (owner_id a =? caller) eqn:Ho; [|done].
  destruct (bool_decide (status a = RENTED)) eqn:H1;
    [|destruct (bool_decide (status a = CLOSED)) eqn:H2]; simpl; try done;
    exfalso; apply Hno; exists a; apply Z.eqb_eq in Ho;
    repeat match goal with H : bool_decide _ = true |- _ =>
      apply bool_decide_eq_true in H end; auto.
Qed.

Lemma reactivate_guarded_witness :
  reactivate db_active 1 7 = (false, db_active) /\
  reactivate db_closed 1 7
    = (true, set_ads db_closed
               (<[1 := with_status (with_status pending_ad CLOSED) ACTIVE]> (ads db_closed))).
Proof.
  split.
  - apply (proj2 (reactivate_guarded db_active 1 7)).
    intros (a & Ha & _ & Hs). vm_compute in Ha. inversion Ha; subst.
    destruct Hs; discriminate.
  - apply (proj1 (reactivate_guarded db_closed 1 7)); auto.
Defined.

(** [delete_ad] by the owner removes the ad and every report filed against
    it and leaves the other ads alone; by anybody else, or on a missing ad,
    it returns [False] and changes nothing. *)
Theorem delete_ad_owner_only (db : DB) (ad_id0 caller : Z) :
  (forall a, ads db !! ad_id0 = Some a -> owner_id a = caller ->
     let '(ok, db') := delete_ad db ad_id0 caller in
     ok = true /\ ads db' !! ad_id0 = None /\
     (forall j, j <> ad_id0 -> ads db' !! j = ads db !! j) /\
     (forall k r, reports db' !! k = Some r -> report_ad_id r <> ad_id0 /\
                  reports db !! k = Some r)) /\
  ((forall a, ads db !! ad_id0 = Some a -> owner_id a <> caller) ->
     delete_ad db ad_id0 caller = (false, db)).
Proof.
  unfold delete_ad. split.
  - intros a Ha Ho. rewrite Ha, Ho, Z.eqb_refl. simpl.
    split; [done|]. split; [apply lookup_delete_eq|]. split.
    + intros j Hj. by apply lookup_delete_ne.
    + intros k r Hk. apply map_lookup_filter_Some in Hk as [Hk Hr]. done.
  - intros Hno. destruct (ads db !! ad_id0) as [a|] eqn:Ha; [|done].
    specialize (Hno a eq_refl). apply Z.eqb_neq in Hno. rewrite Hno. done.
Qed.

Lemma delete_ad_owner_only_witness :
  ads (snd (delete_ad db_report_rented 1 7)) = ∅ /\
  reports (snd (delete_ad db_report_rented 1 7)) = ∅ /\
  delete_ad db_report_rented 1 8 = (false, db_report_rented).
Proof.
  split; [|split].
  - pose proof (proj1 (delete_ad_owner_only db_report_rented 1 7)
                  (with_status pending_ad RENTED) eq_refl eq_refl) as H.
    destruct (delete_ad db_report_rented 1 7) as [ok db'] eqn:E.
    destruct H as (_ & H1 & H2 & _). simpl. apply map_eq. intros j.
    destruct (decide (j = 1)) as [->|Hj]; [rewrite H1; done|].
    rewrite (H2 j Hj). vm_compute. destruct j as [|p|p]; try done.
    destruct p; done.
  - vm_compute. reflexivity.
  - apply (proj2 (delete_ad_owner_only db_report_rented 1 8)).
    intros a Ha. vm_compute in Ha. inversion Ha. discriminate.
Defined.

(** [AdService.approve] and [ModerationService.approve_ad] are the same
    transition: they succeed on the same inputs and leave the same tables. *)
Theorem approve_paths_agree (db : DB) (ad_id0 moderator : Z) :
  snd (approve db ad_id0) = snd (ModerationService.approve_ad db ad_id0 moderator) /\
  fst (approve db ad_id0) = bool_decide (is_Some (fst (ModerationService.approve_ad db ad_id0 moderator))).
Proof.
  unfold approve, ModerationService.approve_ad, update_ad_where, select_ad_where.
  destruct (ads db !! ad_id0) as [a|]; [|done].
  destruct (is_status PENDING a); done.
Qed.

(** [AdService.reject] and [ModerationService.reject_ad] are the same
    transition. *)
Theorem reject_paths_agree (db : DB) (ad_id0 moderator : Z) (reason0 : pystr) :
  snd (reject db ad_id0 reason0) = snd (ModerationService.reject_ad db ad_id0 moderator reason0) /\
  fst (reject db ad_id0 reason0)
    = bool_decide (is_Some (fst (ModerationService.reject_ad db ad_id0 moderator reason0))).
Proof.
  unfold reject, ModerationService.reject_ad, update_ad_where, select_ad_where.
  destruct (ads db !! ad_id0) as [a|]; [|done].
  destruct (is_status PENDING a); done.
Qed.

(** [create] raises exactly when a value does not fit its column or the
    owner is not a user; otherwise [get_by_id] on the new id gives back the
    row as stored: in status PENDING, with no rejection reason and no
    views, the submitted description, and the other values as their columns
    store them; the other rows are untouched. *)
Theorem create_get_roundtrip (db : DB) (is_user : Z -> bool) (new_id now owner : Z)
    (t d : pystr) (p : Q) (l c ci : pystr) (ph : option pystr) :
  (create db is_user new_id now owner t d p l c ci ph = None <->
     is_user owner = false \/ pg_varchar 200 t = None \/ pg_numeric_10_2 p = None \/
     pg_varchar 200 l = None \/ pg_varchar 100 c = None \/ pg_varchar 200 ci = None \/
     (exists v, ph = Some v /\ pg_varchar 200 v = None)) /\
  (forall ad db', create db is_user new_id now owner t d p l c ci ph = Some (ad, db') ->
     AdService.get_by_id db' new_id = Some ad /\
     status ad = PENDING /\ rejection_reason ad = None /\ views_count ad = 0 /\
     owner_id ad = owner /\ description ad = d /\
     pg_varchar 200 t = Some (title ad) /\ pg_numeric_10_2 p = Some (price_per_day ad) /\
     pg_varchar 200 l = Some (location ad) /\ pg_varchar 100 c = Some (category ad) /\
     pg_varchar 200 ci = Some (contact_info ad) /\ photo_id ad = ph ≫= pg_varchar 200 /\
     (forall j, j <> new_id -> ads db' !! j = ads db !! j)).
Proof.
  unfold create.
  destruct (pg_varchar 200 t) as [t'|] eqn:Ht, (pg_numeric_10_2 p) as [p'|] eqn:Hp,
    (pg_varchar 200 l) as [l'|] eqn:Hl, (pg_varchar 100 c) as [c'|] eqn:Hc,
    (pg_varchar 200 ci) as [ci'|] eqn:Hci;
    (destruct ph as [v|]; [destruct (pg_varchar 200 v) as [v'|] eqn:Hv|]);
    cbn; destruct (is_user owner) eqn:Hu;
    (split; [split; [intros H|intros H]|intros ad db' H]);
    try discriminate; try reflexivity; try (intuition eauto; fail);
    try (repeat match goal with
                | H : _ \/ _ |- _ => destruct H
                | H : exists _, _ |- _ => destruct H as (? & ? & ?)
                end; simplify_eq; fail).
  all: injection H as <- <-; unfold AdService.get_by_id, set_ads; simpl.
  all: rewrite lookup_insert_eq; repeat split; auto.
  all: intros j Hj; by apply lookup_insert_ne.
Qed.

Lemma create_get_roundtrip_witness :
  create db_active (fun _ => true) 2 100 9 (of_ascii "Tent") (of_ascii "Four-person tent")
    (300 # 1) (of_ascii "Kazan") (of_ascii "Sport") (repeat 97 201) None = None /\
  exists ad db',
    create db_active (fun _ => true) 2 100 9 (of_ascii "Tent") (of_ascii "Four-person tent")
      (300 # 1) (of_ascii "Kazan") (of_ascii "Sport") (of_ascii "@nine") None
    = Some (ad, db') /\ AdService.get_by_id db' 2 = Some ad /\ status ad = PENDING.
Proof.
  split.
  - apply (proj1 (create_get_roundtrip db_active (fun _ => true) 2 100 9 (of_ascii "Tent")
                    (of_ascii "Four-person tent") (300 # 1) (of_ascii "Kazan")
                    (of_ascii "Sport") (repeat 97 201) None)).
    right; right; right; right; right; left. vm_compute. reflexivity.
  - pose proof (proj2 (create_get_roundtrip db_active (fun _ => true) 2 100 9 (of_ascii "Tent")
                (of_ascii "Four-person tent") (300 # 1) (of_ascii "Kazan")
                (of_ascii "Sport") (of_ascii "@nine") None)) as H.
    destruct (create db_active (fun _ => true) 2 100 9 (of_ascii "Tent")
                (of_ascii "Four-person tent") (300 # 1) (of_ascii "Kazan")
                (of_ascii "Sport") (of_ascii "@nine") None) as [[ad db']|] eqn:E;
      [|vm_compute in E; discriminate].
    destruct (H ad db' eq_refl) as (Hg & Hs & _).
    exists ad, db'. auto.
Defined.

Lemma rows_elem (db : DB) (a : Ad) : a ∈ rows db <-> exists k, ads db !! k = Some a.
Proof.
  unfold rows. rewrite list_elem_of_fmap. split.
  - intros ([k a'] & -> & Hk). apply elem_of_map_to_list in Hk. eauto.
  - intros [k Hk]. exists (k, a). split; [done|]. by apply elem_of_map_to_list.
Qed.

Lemma insert_desc_perm (a : Ad) (l : list Ad) : Search.insert_desc a l ≡ₚ a :: l.
Proof.
  induction l as [|b l IH]; simpl; [done|].
  destruct (created_at b <? created_at a); [done|].
  rewrite IH. apply perm_swap.
Qed.

Lemma sort_desc_perm (l : list Ad) : Search.sort_desc l ≡ₚ l.
Proof.
  induction l as [|a l IH]; simpl; [done|]. by rewrite insert_desc_perm, IH.
Qed.

Lemma insert_asc_perm (a : Ad) (l : list Ad) : insert_asc a l ≡ₚ a :: l.
Proof.
  induction l as [|b l IH]; simpl; [done|].
  destruct (created_at a <=? created_at b); [done|].
  rewrite IH. apply perm_swap.
Qed.

Lemma sort_asc_perm (l : list Ad) : sort_asc l ≡ₚ l.
Proof.
  induction l as [|a l IH]; simpl; [done|]. by rewrite insert_asc_perm, IH.
Qed.

Lemma insert_asc_sorted (a : Ad) (l : list Ad) :
  Sorted older l -> Sorted older (insert_asc a l).
Proof.
  induction l as [|b l IH]; simpl; intros Hs.
  - repeat constructor.
  - destruct (created_at a <=? created_at b) eqn:E.
    + apply Z.leb_le in E. constructor; [done|]. constructor. exact E.
    + apply Z.leb_gt in E. inversion Hs as [|? ? Hs' Hhd]; subst.
      constructor; [by apply IH|].
      destruct l as [|c l]; simpl.
      * constructor. unfold older. lia.
      * destruct (created_at a <=? created_at c); constructor; unfold older.
        -- lia.
        -- by inversion Hhd.
Qed.

Lemma sort_asc_sorted (l : list Ad) : Sorted older (sort_asc l).
Proof.
  induction l as [|a l IH]; simpl; [constructor|]. by apply insert_asc_sorted.
Qed.

Lemma insert_desc_sorted (a : Ad) (l : list Ad) :
  Sorted newer l -> Sorted newer (Search.insert_desc a l).
Proof.
  induction l as [|b l IH]; simpl; intros Hs.
  - repeat constructor.
  - destruct (created_at b <? created_at a) eqn:E.
    + apply Z.ltb_lt in E. constructor; [done|]. constructor. unfold newer. lia.
    + apply Z.ltb_ge in E. inversion Hs as [|? ? Hs' Hhd]; subst.
      constructor; [by apply IH|].
      destruct l as [|c l]; simpl.
      * constructor. unfold newer. lia.
      * destruct (created_at c <? created_at a); constructor; unfold newer.
        -- lia.
        -- by inversion Hhd.
Qed.

Lemma sort_desc_sorted (l : list Ad) : Sorted newer (Search.sort_desc l).
Proof.
  induction l as [|a l IH]; simpl; [constructor|]. by apply insert_desc_sorted.
Qed.

(** [get_user_ads] lists exactly the ads of the table that belong to the user
    (and have the requested status, when one is given), each once, newest
    first. *)
Theorem get_user_ads_spec (db : DB) (user_id0 : Z) (st : option AdStatus) :
  (forall a, a ∈ get_user_ads db user_id0 st <->
     (exists k, ads db !! k = Some a) /\ owner_id a = user_id0 /\
     (forall s, st = Some s -> status a = s)) /\
  get_user_ads db user_id0 st
    ≡ₚ filter (fun a => ((owner_id a =? user_id0) &&
                 match st with Some s => is_status s a | None => true end) = true) (rows db) /\
  Sorted newer (get_user_ads db user_id0 st).
Proof.
  unfold get_user_ads. split; [|split; [apply sort_desc_perm | apply sort_desc_sorted]].
  intros a. rewrite (sort_desc_perm _), list_elem_of_filter, rows_elem.
  rewrite andb_true_iff, Z.eqb_eq. unfold is_status.
  destruct st as [s|]; rewrite ?bool_decide_eq_true; naive_solver.
Qed.

Lemma get_pending_elem (db : DB) (a : Ad) :
  a ∈ get_pending db <-> (exists k, ads db !! k = Some a) /\ status a = PENDING.
Proof.
  unfold get_pending. rewrite (sort_asc_perm _), list_elem_of_filter, rows_elem.
  unfold is_status. rewrite bool_decide_eq_true. naive_solver.
Qed.

(** [get_pending] lists exactly the PENDING ads of the table, oldest
    first. *)
Theorem get_pending_spec (db : DB) :
  (forall a, a ∈ get_pending db <-> (exists k, ads db !! k = Some a) /\ status a = PENDING) /\
  Sorted older (get_pending db).
Proof.
  split; [apply get_pending_elem|]. apply sort_asc_sorted.
Qed.

(** In [get_stats] the active and pending counts never add up to more than
    the total, and the total is the number of rows. *)
Theorem get_stats_bounded (db : DB) :
  (active (get_stats db) + pending (get_stats db) <= total (get_stats db))%nat /\
  total (get_stats db) = size (ads db).
Proof.
  unfold get_stats; simpl. split.
  - induction (rows db) as [|a l IH]; [simpl; lia|].
    rewrite !filter_cons. unfold is_status in *.
    repeat case_decide; repeat match goal with H : bool_decide _ = true |- _ =>
      apply bool_decide_eq_true in H end; simpl; try congruence; lia.
  - unfold rows. by rewrite length_fmap, length_map_to_list.
Qed.

End AdServiceFacts.

Module ModerationFacts.
Import AdServiceOps ModerationOps.






End ModerationFacts.

Module SearchFacts.
Import AdServiceOps.

(** The code points [%], [_] and [\] that [LIKE] treats specially. *)
Lemma like_cons_plain (c : Z) (p : pystr) :
  c <> 37 -> c <> 95 -> c <> 92 ->
  Search.like (c :: p)
  = fun s => match s with [] => false | d :: s' => (d =? c) && Search.like p s' end.
Proof.
  intros H1 H2 H3.
  destruct c as [|q|q]; try reflexivity.
  repeat (destruct q as [q|q|]; try reflexivity); congruence.
Qed.

Lemma like_pct_unfold (p s : pystr) :
  Search.like (37 :: p) s
  = Search.like p s || match s with [] => false | _ :: s' => Search.like (37 :: p) s' end.
Proof. destruct s; reflexivity. Qed.

Lemma like_pct_end (s : pystr) : Search.like [37] s = true.
Proof.
  induction s as [|c s IH]; [reflexivity|].
  rewrite like_pct_unfold, IH. apply orb_true_r.
Qed.

Lemma like_lit_pct (k s : pystr) :
  Forall (fun c => c <> 37 /\ c <> 95 /\ c <> 92) k ->
  Search.like (k ++ [37]) s = is_prefix k s.
Proof.
  revert s. induction k as [|c k IH]; intros s Hk.
  - apply like_pct_end.
  - inversion Hk as [|? ? [H1 [H2 H3]] Hk']; subst. simpl app.
    rewrite (like_cons_plain c _ H1 H2 H3).
    destruct s as [|d s]; [reflexivity|]. simpl.
    rewrite IH by done. by rewrite Z.eqb_sym.
Qed.

(** For a search term with none of the [LIKE] metacharacters [%], [_], [\],
    the pattern ['%' + term + '%'] that [search] builds is plain substring
    containment. *)
Theorem like_plain_substring (k s : pystr) :
  Forall (fun c => c <> 37 /\ c <> 95 /\ c <> 92) k ->
  Search.like (37 :: k ++ [37]) s = py_in k s.
Proof.
  intros Hk. induction s as [|c s IH].
  - rewrite like_pct_unfold, like_lit_pct by done. simpl. by rewrite orb_false_r.
  - rewrite like_pct_unfold, like_lit_pct, IH by done. reflexivity.
Qed.

Lemma sorted_drop {A} (R : A -> A -> Prop) (n : nat) (l : list A) :
  Sorted R l -> Sorted R (drop n l).
Proof.
  revert l. induction n as [|n IH]; intros l Hs; [done|].
  destruct l as [|a l]; [constructor|]. simpl. apply IH. by inversion Hs.
Qed.

Lemma sorted_take {A} (R : A -> A -> Prop) (n : nat) (l : list A) :
  Sorted R l -> Sorted R (take n l).
Proof.
  revert l. induction n as [|n IH]; intros l Hs; [constructor|].
  destruct l as [|a l]; [constructor|]. simpl.
  inversion Hs as [|? ? Hs' Hhd]; subst. constructor; [by apply IH|].
  destruct n, l; simpl; try constructor. by inversion Hhd.
Qed.

(** Two lists of ads that are newest first and permutations of each other
    are equal when no two of their ads share [created_at]. *)
Lemma sorted_newer_unique (l1 l2 : list Ad) :
  (forall x y, In x l1 -> In y l1 -> created_at x = created_at y -> x = y) ->
  Sorted newer l1 -> Sorted newer l2 -> l1 ≡ₚ l2 -> l1 = l2.
Proof.
  intros Hinj H1 H2 Hp.
  assert (Htr : Transitive newer) by (intros x y z; unfold newer; lia).
  apply Sorted_StronglySorted in H1; [|exact Htr].
  apply Sorted_StronglySorted in H2; [|exact Htr].
  revert l2 H2 Hp Hinj. induction H1 as [|a l1 H1 IH Hall]; intros l2 H2 Hp Hinj.
  - symmetry. by apply Permutation_nil.
  - destruct l2 as [|b l2].
    + apply Permutation_sym, Permutation_nil in Hp. discriminate.
    + inversion H2 as [|? ? H2' Hall2]; subst.
      assert (a = b) as <-.
      { assert (Hb : In b (a :: l1)) by (apply (Permutation_in _ (Permutation_sym Hp)); left; done).
        assert (Ha : In a (b :: l2)) by (apply (Permutation_in _ Hp); left; done).
        destruct Hb as [Hb|Hb]; [done|].
        destruct Ha as [Ha|Ha]; [done|].
        rewrite Forall_forall in Hall, Hall2.
        apply list_elem_of_In in Ha, Hb.
        specialize (Hall b Hb). specialize (Hall2 a Ha). unfold newer in Hall, Hall2.
        apply Hinj; [left; done|right; by apply list_elem_of_In|lia]. }
      f_equal. apply IH; [done|by apply Permutation_cons_inv in Hp|].
      intros x y Hx Hy. apply Hinj; right; done.
Qed.

(** A page of [search] holds at most [limit] ads, newest first, whatever
    order the server picks.  When no two ads share [created_at], two
    consecutive pages ([offset], then [offset + limit]) together are the
    page of the summed limit, even if the server picks its order anew for
    each query: paging neither skips nor repeats a result. *)
Theorem search_pages (py_lower sql_lower : pystr -> pystr) (db : DB)
    (keywords location0 category0 : option pystr) (min_price max_price : option Q)
    (o1 o2 o3 : list Ad -> list Ad) (limit1 limit2 offset : nat) :
  Search.valid_order o1 -> Search.valid_order o2 -> Search.valid_order o3 ->
  let page o := Search.search py_lower sql_lower o db keywords location0 category0
                  min_price max_price in
  (length (page o1 limit1 offset) <= limit1)%nat /\
  Sorted newer (page o1 limit1 offset) /\
  ((forall k1 k2 a1 a2, ads db !! k1 = Some a1 -> ads db !! k2 = Some a2 ->
      created_at a1 = created_at a2 -> k1 = k2) ->
   page o1 limit1 offset ++ page o2 limit2 (offset + limit1)%nat
   = page o3 (limit1 + limit2)%nat offset).
Proof.
  intros H1 H2 H3 page. unfold page, Search.search. split; [|split].
  - rewrite length_take. lia.
  - apply sorted_take, sorted_drop, (H1 _).
  - intros Hkeys.
    set (F := filter _ _).
    assert (Hinj : forall x y, In x F -> In y F -> created_at x = created_at y -> x = y).
    { intros x y Hx Hy He. unfold F in Hx, Hy.
      apply list_elem_of_In, list_elem_of_filter in Hx as [_ Hx].
      apply list_elem_of_In, list_elem_of_filter in Hy as [_ Hy].
      change (x ∈ rows db) in Hx. change (y ∈ rows db) in Hy.
      apply AdServiceFacts.rows_elem in Hx as [k1 Hk1].
      apply AdServiceFacts.rows_elem in Hy as [k2 Hk2].
      pose proof (Hkeys _ _ _ _ Hk1 Hk2 He) as ->. congruence. }
    assert (Hsame : forall o o', Search.valid_order o -> Search.valid_order o' -> o F = o' F).
    { intros o o' Ho Ho'. destruct (Ho F) as [Hp Hs]. destruct (Ho' F) as [Hp' Hs'].
      apply sorted_newer_unique; [|done|done|by rewrite Hp, Hp'].
      intros x y Hx Hy. apply Hinj; by apply (Permutation_in _ Hp). }
    rewrite (Hsame o2 o1), (Hsame o3 o1) by done.
    rewrite <- drop_drop. apply take_take_drop.
Qed.

Lemma search_pages_witness :
  Search.search ascii_lower ascii_lower Search.sort_desc db_two None None None None None 1 0 ++
  Search.search ascii_lower ascii_lower Search.sort_desc db_two None None None None None 1 1
  = Search.search ascii_lower ascii_lower Search.sort_desc db_two None None None None None 2 0.
Proof.
  assert (Hv : Search.valid_order Search.sort_desc).
  { intros l. split; [apply AdServiceFacts.sort_desc_perm|apply AdServiceFacts.sort_desc_sorted]. }
  destruct (search_pages ascii_lower ascii_lower db_two None None None None None
              Search.sort_desc Search.sort_desc Search.sort_desc 1 1 0 Hv Hv Hv)
    as (_ & _ & H).
  apply H. intros k1 k2 a1 a2 Hk1 Hk2 He. simpl in Hk1, Hk2.
  apply lookup_insert_Some in Hk1 as [[<- <-]|[_ Hk1]];
    [|apply lookup_singleton_Some in Hk1 as [<- <-]];
  (apply lookup_insert_Some in Hk2 as [[<- <-]|[_ Hk2]];
    [|apply lookup_singleton_Some in Hk2 as [<- <-]]); first [reflexivity | discriminate].
Defined.

(** With a keyword free of [%], [_] and [\] (after lower-casing), [search]
    keeps an ad when it is ACTIVE and the keyword occurs in its lower-cased
    title or description. *)
Theorem search_plain_keyword (py_lower sql_lower : pystr -> pystr) (k : pystr) (a : Ad) :
  k <> [] ->
  Forall (fun c => c <> 37 /\ c <> 95 /\ c <> 92) (py_lower k) ->
  Search.search_where py_lower sql_lower (Some k) None None None None a
  = is_status ACTIVE a &&
    (py_in (py_lower k) (sql_lower (title a)) || py_in (py_lower k) (sql_lower (description a))).
Proof.
  intros Hne Hk. unfold Search.search_where.
  destruct k as [|c k]; [done|]. simpl truthy_str. cbv iota.
  rewrite !like_plain_substring by done. by rewrite !andb_true_r.
Qed.

Lemma search_plain_keyword_witness :
  Search.search_where ascii_lower ascii_lower (Some (of_ascii "AB")) None None None None abc_ad
  = true.
Proof.
  rewrite (search_plain_keyword ascii_lower ascii_lower (of_ascii "AB") abc_ad)
    by (try discriminate; repeat constructor; discriminate).
  reflexivity.
Defined.

End SearchFacts.

Module NotificationFacts.
Import Notifications.

Lemma notify_loop_result (lower : pystr -> pystr) (telegram_of : Z -> Z)
    (outcome : Z -> SendOutcome) (ad : Ad) (subs : list Subscription) (c : nat) :
  notify_loop lower telegram_of outcome ad subs c
  = if existsb (fun sub => matches_ad lower sub ad &&
                           bool_decide (outcome (telegram_of (user_id sub)) = Raised)) subs
    then None
    else Some (c + length (filter (fun sub => matches_ad lower sub ad = true /\
                                   outcome (telegram_of (user_id sub)) = Delivered) subs))%nat.
Proof.
  revert c. induction subs as [|sub subs IH]; intros c; simpl; [f_equal; lia|].
  rewrite filter_cons. unfold send_notification.
  destruct (matches_ad lower sub ad) eqn:Hm; simpl.
  - destruct (outcome (telegram_of (user_id sub))) eqn:Ho; simpl; rewrite ?IH;
      repeat case_decide; try (exfalso; naive_solver);
      destruct existsb; simpl; try done; f_equal; lia.
  - rewrite IH. repeat case_decide; try (exfalso; naive_solver); done.
Qed.

(** [notify_new_ad] reports the number of other users' active subscriptions
    that match the ad and whose message was delivered; an undelivered
    message (a caught Telegram error) is skipped, and any other send error
    aborts the whole call. *)
Theorem notify_new_ad_result (lower : pystr -> pystr) (telegram_of : Z -> Z)
    (outcome : Z -> SendOutcome) (t : SubsTable) (ad : Ad) :
  let eligible := filter (fun sub => is_active sub = true /\ user_id sub <> owner_id ad)
                    (sub_rows t) in
  notify_new_ad lower telegram_of outcome t ad
  = if existsb (fun sub => matches_ad lower sub ad &&
                           bool_decide (outcome (telegram_of (user_id sub)) = Raised)) eligible
    then None
    else Some (length (filter (fun sub => matches_ad lower sub ad = true /\
                                 outcome (telegram_of (user_id sub)) = Delivered) eligible)).
Proof. intros eligible. unfold notify_new_ad. apply notify_loop_result. Qed.

(** [toggle_subscription] by the subscription's owner flips [is_active] and
    nothing else, and toggling twice restores the table; for anybody else,
    or a missing subscription, it returns [False] and changes nothing. *)
Theorem toggle_subscription_spec (t : SubsTable) (subscription_id user_id0 : Z) :
  (forall sub, t !! subscription_id = Some sub -> user_id sub = user_id0 ->
     fst (toggle_subscription t subscription_id user_id0) = true /\
     snd (toggle_subscription t subscription_id user_id0) !! subscription_id
       = Some (mk_subscription (keywords sub) (sub_category sub) (sub_location sub)
                 (max_price sub) (negb (is_active sub)) (user_id sub)) /\
     (forall j, j <> subscription_id ->
        snd (toggle_subscription t subscription_id user_id0) !! j = t !! j) /\
     toggle_subscription (snd (toggle_subscription t subscription_id user_id0))
       subscription_id user_id0 = (true, t)) /\
  ((forall sub, t !! subscription_id = Some sub -> user_id sub <> user_id0) ->
     toggle_subscription t subscription_id user_id0 = (false, t)).
Proof.
  unfold toggle_subscription. split.
  - intros sub Hs Hu. rewrite Hs, Hu, Z.eqb_refl. cbn [fst snd].
    split; [done|]. split; [apply lookup_insert_eq|]. split.
    + intros j Hj. by apply lookup_insert_ne.
    + rewrite lookup_insert_eq. cbn [user_id is_active]. rewrite Z.eqb_refl, insert_insert_eq, negb_involutive.
      rewrite insert_id; [done|]. rewrite Hs, <- Hu. by destruct sub.
  - intros Hn. destruct (t !! subscription_id) as [sub|] eqn:Hs; [|done].
    specialize (Hn sub eq_refl). destruct (Z.eqb_spec (user_id sub) user_id0); done.
Qed.

(** [delete_subscription] removes the subscription and returns [True]
    exactly when it exists and belongs to the caller; otherwise the table is
    unchanged. *)
Theorem delete_subscription_spec (t : SubsTable) (subscription_id user_id0 : Z) :
  let '(ok, t') := delete_subscription t subscription_id user_id0 in
  (ok = true <-> exists sub, t !! subscription_id = Some sub /\ user_id sub = user_id0) /\
  (ok = true -> t' = delete subscription_id t) /\
  (ok = false -> t' = t).
Proof.
  unfold delete_subscription.
  destruct (t !! subscription_id) as [sub|] eqn:Hs.
  - destruct (Z.eqb_spec (user_id sub) user_id0) as [Hu|Hu].
    + split; [|done]. split; [eauto|done].
    + split; [|done]. split; [done|]. intros (s' & Hs' & Hu'). congruence.
  - split; [|done]. split; [done|]. intros (s' & Hs' & _). congruence.
Qed.

End NotificationFacts.

Module ValidatorExtraFacts.
Import Validators.

Lemma forallb_rev_true (f : Z -> bool) (l : pystr) :
  forallb f l = true -> forallb f (rev l) = true.
Proof.
  rewrite !forallb_forall. intros H x Hx. apply H. by apply in_rev.
Qed.

Lemma split_aux_words (s cur : pystr) :
  forallb (fun c => negb (py_isspace c)) cur = true ->
  Forall (fun w => w <> [] /\ forallb (fun c => negb (py_isspace c)) w = true)
    (split_aux s cur).
Proof.
  revert cur. induction s as [|c s IH]; intros cur Hcur; simpl.
  - destruct cur as [|c cur]; [constructor|].
    constructor; [|constructor]. split.
    + intros Habs. apply (f_equal (@length Z)) in Habs. rewrite length_rev in Habs. done.
    + by apply forallb_rev_true.
  - destruct (py_isspace c) eqn:Hc.
    + destruct cur as [|c' cur]; [by apply IH|].
      constructor; [|by apply IH]. split.
      * intros Habs. apply (f_equal (@length Z)) in Habs. rewrite length_rev in Habs. done.
      * by apply forallb_rev_true.
    + apply IH. simpl. by rewrite Hc, Hcur.
Qed.

Lemma join_words_normal (ws : list pystr) :
  ws <> [] ->
  Forall (fun w => w <> [] /\ forallb (fun c => negb (py_isspace c)) w = true) ws ->
  ws_normal (join_space ws).
Proof.
  induction ws as [|w ws IH]; intros Hne Hf; [done|].
  inversion Hf as [|? ? [Hw1 Hw2] Hf']; subst.
  destruct ws as [|w2 ws].
  - by apply wn_word.
  - change (ws_normal (w ++ 32 :: join_space (w2 :: ws))). apply wn_cons; auto.
Qed.

Lemma cleaned_normal (s : pystr) :
  join_space (py_split s) = [] \/ ws_normal (join_space (py_split s)).
Proof.
  unfold py_split. destruct (split_aux s []) as [|w ws] eqn:E; [by left|].
  right. apply join_words_normal; [done|]. rewrite <- E. by apply split_aux_words.
Qed.

(** What [validate_title] returns is whitespace-normalised (single spaces
    between non-empty words, none at the ends), and validating it again
    returns it unchanged. *)
Theorem validate_title_idempotent (ceq : Z -> Z -> bool) (t c : pystr) :
  validate_title ceq t = Some c -> ws_normal c /\ validate_title ceq c = Some c.
Proof.
  unfold validate_title at 1. destruct t as [|x t]; [done|].
  set (cl := join_space (py_split (x :: t))).
  destruct (Nat.ltb (length cl) 3 || Nat.ltb 200 (length cl)) eqn:Hlen; [done|].
  destruct (existsb (fun pattern => search pattern cl) (spam_patterns ceq)) eqn:Hsp;
    [done|].
  intros [= <-].
  assert (Hn : ws_normal cl).
  { destruct (cleaned_normal (x :: t)) as [He|Hn]; [|exact Hn].
    unfold cl in Hlen. rewrite He in Hlen. done. }
  split; [done|]. rewrite ValidatorFacts.validate_title_normal by done.
  by rewrite Hlen, Hsp.
Qed.

Lemma validate_title_idempotent_witness :
  validate_title ascii_ceq (of_ascii "Tent") = Some (of_ascii "Tent").
Proof.
  apply (validate_title_idempotent ascii_ceq (of_ascii "  Tent   ") (of_ascii "Tent")).
  vm_compute. reflexivity.
Defined.

(** What [validate_location] returns is whitespace-normalised, 2 to 200
    characters long, and validating it again returns it unchanged. *)
Theorem validate_location_idempotent (l c : pystr) :
  validate_location l = Some c ->
  ws_normal c /\ (2 <= length c <= 200)%nat /\ validate_location c = Some c.
Proof.
  unfold validate_location at 1. destruct l as [|x l]; [done|].
  set (cl := join_space (py_split (x :: l))).
  destruct (Nat.ltb (length cl) 2 || Nat.ltb 200 (length cl)) eqn:Hlen; [done|].
  intros [= <-].
  apply orb_false_iff in Hlen as [H1 H2].
  apply Nat.ltb_ge in H1. apply Nat.ltb_ge in H2.
  assert (Hn : ws_normal cl).
  { destruct (cleaned_normal (x :: l)) as [He|Hn]; [|exact Hn].
    unfold cl in H1. rewrite He in H1. simpl in H1. lia. }
  split; [done|]. split; [lia|].
  unfold validate_location. rewrite ValidatorFacts.clean_normal by done.
  destruct cl as [|y cl']; [by apply ValidatorFacts.normal_nonempty in Hn|].
  assert (Nat.ltb (length (y :: cl')) 2 || Nat.ltb 200 (length (y :: cl')) = false) as ->.
  { apply orb_false_iff. split; apply Nat.ltb_ge; lia. }
  done.
Qed.

Lemma validate_location_idempotent_witness :
  validate_location (of_ascii "St Petersburg") = Some (of_ascii "St Petersburg").
Proof.
  apply (validate_location_idempotent (of_ascii " St   Petersburg ") (of_ascii "St Petersburg")).
  vm_compute. reflexivity.
Defined.

Lemma replace_fuel_single (f : nat) (c : Z) (new s : pystr) :
  (length s <= f)%nat ->
  replace_fuel f [c] new s = flat_map (fun x => if x =? c then new else [x]) s.
Proof.
  revert f. induction s as [|x s IH]; intros f Hf.
  - destruct f; reflexivity.
  - destruct f as [|f]; [simpl in Hf; lia|]. simpl in Hf |- *.
    rewrite andb_true_r, Z.eqb_sym. destruct (x =? c).
    + simpl. rewrite IH by lia. done.
    + rewrite IH by lia. done.
Qed.

Lemma py_replace_single (c : Z) (new s : pystr) :
  py_replace [c] new s = flat_map (fun x => if x =? c then new else [x]) s.
Proof. apply replace_fuel_single. done. Qed.

Lemma replace_removes (c : Z) (new s : pystr) :
  ~ In c new -> ~ In c (py_replace [c] new s).
Proof.
  rewrite py_replace_single. intros Hn Hin. apply in_flat_map in Hin as (x & _ & Hx).
  destruct (Z.eqb_spec x c); [done|]. destruct Hx as [->|[]]. done.
Qed.

Lemma replace_keeps_out (c d : Z) (new s : pystr) :
  ~ In d new -> ~ In d s -> ~ In d (py_replace [c] new s).
Proof.
  rewrite py_replace_single. intros Hn Hs Hin. apply in_flat_map in Hin as (x & Hxs & Hx).
  destruct (x =? c); [done|]. destruct Hx as [->|[]]. done.
Qed.

Lemma replace_absent (c : Z) (new s : pystr) : ~ In c s -> py_replace [c] new s = s.
Proof.
  rewrite py_replace_single. induction s as [|x s IH]; intros Hs; [done|].
  simpl. destruct (Z.eqb_spec x c) as [->|_]; [simpl in Hs; tauto|].
  simpl. rewrite IH; [done|]. simpl in Hs. tauto.
Qed.

Lemma strip_tags_fuel_absent (f : nat) (s : pystr) : ~ In 60 s -> strip_tags_fuel f s = s.
Proof.
  revert s. induction f as [|f IH]; intros s Hs; [done|].
  destruct s as [|x s]; [done|]. simpl.
  destruct (Z.eqb_spec x 60) as [->|_]; [simpl in Hs; tauto|]. simpl.
  rewrite IH; [done|]. simpl in Hs. tauto.
Qed.

(** The output of [sanitize_html] never contains [<] or [>]; a text with no
    [<], [>] or [&] comes back unchanged. *)
Theorem sanitize_html_spec (text : pystr) :
  ~ In 60 (sanitize_html text) /\ ~ In 62 (sanitize_html text) /\
  (~ In 60 text -> ~ In 62 text -> ~ In 38 text -> sanitize_html text = text).
Proof.
  unfold sanitize_html. split; [|split].
  - apply replace_keeps_out; [intros Hin; vm_compute in Hin; intuition discriminate|].
    apply replace_removes. intros Hin; vm_compute in Hin; intuition discriminate.
  - apply replace_removes. intros Hin; vm_compute in Hin; intuition discriminate.
  - intros H60 H62 H38. unfold strip_tags. rewrite strip_tags_fuel_absent by done.
    rewrite (replace_absent 38), (replace_absent 60), (replace_absent 62) by done. done.
Qed.

(** [is_valid_telegram_username] accepts exactly the names (after one
    leading [@] is dropped) made of an ASCII letter and 4 to 31 ASCII
    letters, digits or underscores, optionally followed by one newline
    (which the [$] of the pattern lets through). *)
Theorem telegram_username_spec (username : pystr) :
  let name := match username with 64 :: rest => rest | _ => username end in
  is_valid_telegram_username username = true <->
  exists c r, (name = c :: r \/ name = c :: r ++ [10]) /\ is_ascii_letter c = true /\
    forallb is_name_char r = true /\ (4 <= length r <= 31)%nat.
Proof.
  intros name. unfold is_valid_telegram_username. cbv zeta. fold name. clearbody name.
  destruct name as [|c rest].
  - split; [discriminate|]. intros (c & r & [H|H] & _); discriminate.
  - rewrite andb_true_iff, existsb_exists. split.
    + intros [Hc (k & Hk & Hm)]. apply in_seq in Hk.
      apply andb_true_iff in Hm as [Hm Hd]. apply andb_true_iff in Hm as [Hl Hw].
      apply Nat.leb_le in Hl.
      exists c, (take k rest). split; [|split; [done|split; [done|]]].
      * assert (Hdrop : drop k rest = [] \/ drop k rest = [10]).
        { unfold re_dollar in Hd. destruct (drop k rest) as [|x [|y t]]; [by left| |];
            destruct x as [|p|p]; try discriminate;
            repeat (destruct p as [p|p|]; try discriminate); by right. }
        destruct Hdrop as [H0 | H0]; [left | right]; rewrite <- (take_drop k rest) at 1;
          rewrite H0; [by rewrite app_nil_r | done].
      * rewrite length_take. lia.
    + intros (c' & r & Hn & Hc & Hr & Hlen).
      assert (c' = c /\ (rest = r \/ rest = r ++ [10])) as [-> Hrest]
        by (destruct Hn as [[= -> ->]|[= -> ->]]; auto).
      split; [done|]. exists (length r). split; [apply in_seq; lia|].
      destruct Hrest as [->| ->].
      * rewrite Nat.leb_refl, take_ge, drop_ge by lia. by rewrite Hr.
      * rewrite length_app. simpl.
        assert (Nat.leb (length r) (length r + 1) = true) as -> by (apply Nat.leb_le; lia).
        rewrite take_app_length, drop_app_length, Hr. done.
Qed.

Lemma quantize_cents_bound (coef exp : Z) (d : Decimal) :
  0 <= coef -> Qle (finite_value false coef exp) (inject_Z 10000000) ->
  quantize_cents (DFinite false coef exp) = Some d ->
  exists c, d = DFinite false c (-2) /\ 0 <= c <= 10 ^ 9.
Proof.
  intros Hc Hv. unfold quantize_cents.
  match goal with |- (if _ <=? ?C then _ else _) = _ -> _ =>
    assert (Hb : 0 <= C <= 10 ^ 9) end.
  { unfold finite_value in Hv.
    destruct (Z.leb_spec (-2) exp) as [He|He].
    - destruct (Z.leb_spec 0 exp) as [H0|H0].
      + unfold Qle in Hv. simpl in Hv.
        rewrite Z.pow_add_r by lia.
        assert (0 <= 10 ^ exp) by (apply Z.pow_nonneg; lia). nia.
      + assert (exp = -1 \/ exp = -2) as [-> | ->] by lia;
          unfold Qle in Hv; simpl in Hv |- *; lia.
    - assert (HP : 0 < 10 ^ (-2 - exp)) by (apply Z.pow_pos_nonneg; lia).
      assert (H100 : 10 ^ (- exp) = 10 ^ (-2 - exp) * 100).
      { replace (- exp) with ((-2 - exp) + 2) by lia. rewrite Z.pow_add_r by lia. done. }
      assert (Hle : coef <= 10 ^ 9 * 10 ^ (-2 - exp)).
      { destruct (Z.leb_spec 0 exp) as [H0|H0]; [lia|].
        unfold Qle in Hv. simpl in Hv. rewrite Z2Pos.id in Hv by lia. lia. }
      remember (10 ^ (-2 - exp)) as P eqn:EP. clear EP H100.
      pose proof (Z.div_mod coef P ltac:(lia)) as Hdm.
      pose proof (Z.mod_pos_bound coef P HP) as Hr.
      assert (Hq0 : 0 <= coef / P) by (apply Z.div_pos; lia).
      remember (coef / P) as q. remember (coef mod P) as r.
      assert (q <= 10 ^ 9) by nia.
      destruct (Z.ltb_spec (2 * r) P); [lia|].
      destruct (Z.ltb_spec P (2 * r)); [nia|].
      destruct (Z.even q); nia. }
  assert (H928 : 10 ^ 9 < 10 ^ 28) by (vm_compute; reflexivity).
  match goal with |- (if ?A <=? ?C then _ else _) = _ -> _ =>
    destruct (Z.leb_spec A C) end; [lia|].
  intros [= <-]. eauto.
Qed.

(** A price accepted by [validate_price] is a non-negative amount in cents
    ([DFinite false c (-2)]) of at most 10,000,000.00; after rounding it can
    be 0.00. This holds for any table [todecimal] of Unicode decimal digits
    used by the conversion. *)
Theorem validate_price_cents (todecimal : Z -> Z) (price_str : pystr) (d : Decimal) :
  validate_price todecimal price_str = Some d ->
  exists c, d = DFinite false c (-2) /\ 0 <= c <= 10 ^ 9.
Proof.
  unfold validate_price.
  destruct (parse_decimal todecimal (price_cleaned price_str))
    as [[neg coef exp| |]|] eqn:Hp; try discriminate.
  pose proof (ValidatorFacts.parse_decimal_coef_nonneg _ _ _ _ _ Hp) as Hc.
  destruct (Qle_bool (finite_value neg coef exp) 0) eqn:H0; [discriminate|].
  destruct (Qle_bool (finite_value neg coef exp) (inject_Z 10000000)) eqn:H1; [|discriminate].
  simpl. apply Qle_bool_iff in H1.
  destruct neg.
  - exfalso. apply not_true_iff_false in H0. apply H0, Qle_bool_iff.
    by apply ValidatorFacts.finite_value_neg_nonpos.
  - by apply quantize_cents_bound.
Qed.

Lemma validate_price_cents_witness :
  exists c, validate_price unicode_todecimal (of_ascii "0.001") = Some (DFinite false c (-2)) /\
            0 <= c <= 10 ^ 9.
Proof.
  destruct (validate_price_cents unicode_todecimal (of_ascii "0.001") (DFinite false 0 (-2)))
    as (c & Hc & Hb).
  - vm_compute. reflexivity.
  - exists c. rewrite <- Hc. split; [vm_compute; reflexivity | exact Hb].
Defined.

Lemma flush_newlines_cases (n : nat) :
  flush_newlines n = [] \/ flush_newlines n = [10] \/ flush_newlines n = [10; 10].
Proof.
  unfold flush_newlines. destruct (Nat.leb 3 n) eqn:E; [auto|].
  apply Nat.leb_gt in E. destruct n as [|[|[|n]]]; simpl; auto. lia.
Qed.

Lemma py_in_cons (p : pystr) (x : Z) (b : pystr) :
  py_in p (x :: b) = is_prefix p (x :: b) || py_in p b.
Proof. destruct p; reflexivity. Qed.

Lemma collapse_newlines_no_triple (n : nat) (s : pystr) :
  py_in [10; 10; 10] (collapse_newlines n s) = false.
Proof.
  revert n. induction s as [|c s IH]; intros n; simpl.
  - destruct (flush_newlines_cases n) as [-> | [-> | ->]]; reflexivity.
  - destruct (Z.eqb_spec c 10) as [_|Hc]; [apply IH|].
    assert (Hc' : (10 =? c) = false) by (apply Z.eqb_neq; lia).
    specialize (IH 0%nat).
    assert (P0 : forall b, is_prefix [10; 10; 10] (c :: b) = false)
      by (intros b; cbn [is_prefix]; by rewrite Hc').
    assert (P1 : forall b, is_prefix [10; 10; 10] (10 :: c :: b) = false)
      by (intros b; cbn [is_prefix]; by rewrite Hc', andb_false_r).
    assert (P2 : forall b, is_prefix [10; 10; 10] (10 :: 10 :: c :: b) = false)
      by (intros b; cbn [is_prefix]; by rewrite Hc', !andb_false_r).
    destruct (flush_newlines_cases n) as [-> | [-> | ->]]; simpl app;
      rewrite !py_in_cons, ?P0, ?P1, ?P2, IH; reflexivity.
Qed.

(** What [validate_description] returns is 10 to 2000 characters long and
    never contains three newlines in a row. *)
Theorem validate_description_spec (description c : pystr) :
  validate_description description = Some c ->
  (10 <= length c <= 2000)%nat /\ py_in [10; 10; 10] c = false.
Proof.
  unfold validate_description. destruct description as [|x d]; [done|].
  set (cl := collapse_newlines 0 _).
  destruct (Nat.ltb (length cl) 10 || Nat.ltb 2000 (length cl)) eqn:Hlen; [done|].
  intros [= <-]. apply orb_false_iff in Hlen as [H1 H2].
  apply Nat.ltb_ge in H1. apply Nat.ltb_ge in H2.
  split; [lia|]. apply collapse_newlines_no_triple.
Qed.

Lemma validate_description_spec_witness :
  py_in [10; 10; 10]
    (of_ascii "Big tent," ++ [10; 10] ++ of_ascii "four places") = false.
Proof.
  apply (proj2 (validate_description_spec
                  (of_ascii "Big  tent, " ++ [10; 10; 10; 10] ++ of_ascii " four places")
                  (of_ascii "Big tent," ++ [10; 10] ++ of_ascii "four places")
                  ltac:(vm_compute; reflexivity))).
Defined.

End ValidatorExtraFacts.

Module HandlerFacts.
Import AdServiceOps ModerationHandlers.

(** The rejection handler stores a reason only when the stripped text has at
    least 5 characters; it stores exactly the stripped text, the ad becomes
    REJECTED and so drops out of the moderation queue shown next; in every
    other case the database is unchanged. *)
Theorem process_rejection_reason_spec (db : DB) (text : pystr)
    (rejecting_ad_id : option Z) (moderator_id : Z) :
  match process_rejection_reason db text rejecting_ad_id moderator_id with
  | (Some a, db') =>
      (5 <= length (Validators.py_strip text))%nat /\
      rejection_reason a = Some (Validators.py_strip text) /\ status a = REJECTED /\
      (exists ad_id0, rejecting_ad_id = Some ad_id0 /\ ads db' !! ad_id0 = Some a /\
         (forall j, j <> ad_id0 -> ads db' !! j = ads db !! j)) /\
      a ∉ get_pending db'
  | (None, db') => db' = db
  end.
Proof.
  unfold process_rejection_reason.
  destruct (Nat.ltb (length (Validators.py_strip text)) 5) eqn:Hl; [done|].
  apply Nat.ltb_ge in Hl.
  destruct rejecting_ad_id as [ad_id0|]; [|done].
  unfold ModerationService.reject_ad, select_ad_where.
  destruct (ads db !! ad_id0) as [a|]; [|done].
  destruct (is_status PENDING a); [|done]. cbn [fst snd].
  split; [done|]. split; [done|]. split; [done|]. split.
  - exists ad_id0. split; [done|]. unfold set_ads. cbn [ads].
    split; [apply lookup_insert_eq|]. intros j Hj. by apply lookup_insert_ne.
  - intros Hin. apply AdServiceFacts.get_pending_elem in Hin as [_ Hs].
    simpl in Hs. discriminate.
Qed.

End HandlerFacts.

(** In [Subscription.matches_ad] a falsy criterion (an empty keyword,
    category or location, or a maximum price of 0) filters nothing: the
    subscription matches the same ads as without that criterion. *)
Theorem matches_ad_falsy_unset (lower : pystr -> pystr) (s : Subscription) (ad : Ad) :
  matches_ad lower (drop_falsy s) ad = matches_ad lower s ad.
Proof.
  destruct s as [k c l m act u]. unfold drop_falsy, matches_ad, truthy_dec.
  cbn [keywords sub_category sub_location max_price].
  destruct m as [m|], k as [[|? ?]|], c as [[|? ?]|], l as [[|? ?]|]; cbn;
    try (destruct (Qeq_bool m 0) eqn:E; cbn; rewrite ?E); reflexivity.
Qed.
